(** * Scada-Replica: telemetry generator, outstation agent, master
    coordinator and data logger

    A shallow embedding of the three services of the repository
    ([docker/rtu-simulator/rtu_outstation.py],
    [docker/scada-server/scada_master.py],
    [docker/monitoring/data_logger.py]) and the properties their
    specification states about them. *)

From Stdlib Require Import ZArith QArith Qabs Lia Lqa Floats.
From stdpp Require Import base option list gmap strings pretty.

Local Open Scope Z_scope.

(* ===================================================================== *)
(** * Python values shared by the three services *)
(* ===================================================================== *)

(** The exceptions the modelled code can raise or catch. *)
Inductive exn : Type :=
  | ZeroDivisionError
  | OverflowError
  | TypeError
  | KeyError
  | NameError
  | OSError
  | JSONDecodeError
  | RequestException.

(** ** Floating point numbers

    The generator computes on Python [float]s.  Its code uses [+], [*],
    [/], [-], [** 2], [** 0.5], [<], [==] and numeric literals; the
    interface below names exactly these.  [x ** 2] and [x ** 0.5] can
    raise [OverflowError]; [x ** 0.5] of a negative float is not a
    float but a complex number. *)

Class PyFloat (F : Type) := {
  fadd : F -> F -> F;          (* x + y *)
  fsub : F -> F -> F;          (* x - y *)
  fmul : F -> F -> F;          (* x * y *)
  fdiv : F -> F -> F;          (* x / y, for y != 0 *)
  fpow2 : F -> exn + F;        (* x ** 2 *)
  fpow_half : F -> exn + option F;  (* x ** 0.5, None: a complex number *)
  flt : F -> F -> bool;        (* x < y *)
  fle : F -> F -> bool;        (* x <= y *)
  feq : F -> F -> bool;        (* x == y *)
  flit : Q -> F                (* a decimal literal, or float(n) of an int *)
}.

(** The two facts about [<] and [<=] the range invariant rests on.  Both
    hold of IEEE comparisons, NaN included: no totality is asked for. *)
Class PyFloatOrder (F : Type) `{PyFloat F} := {
  flt_fle : forall x y : F, flt x y = true -> fle x y = true;
  fle_refl_of_fle : forall x y : F,
    fle x y = true -> fle x x = true /\ fle y y = true
}.

(** [max(a, b)] and [min(a, b)] of two arguments, as CPython's
    [min_max] computes them: the first argument is kept unless the
    second compares strictly greater (resp. smaller). *)
Definition py_max {F} `{PyFloat F} (a b : F) : F := if flt a b then b else a.
Definition py_min {F} `{PyFloat F} (a b : F) : F := if flt b a then b else a.

(** *** IEEE binary64 *)

(** A literal [n/d] is read as the correctly rounded quotient of the two
    integers (both exactly representable for the literals of this
    code). *)
Definition float_of_Q (q : Q) : float :=
  let n := PrimFloat.of_uint63 (Uint63.of_Z (Z.abs (Qnum q))) in
  let d := PrimFloat.of_uint63 (Uint63.of_Z (Zpos (Qden q))) in
  let r := PrimFloat.div n d in
  if (Qnum q <? 0)%Z then PrimFloat.opp r else r.

(** CPython computes [x ** y] of two floats in [float_pow]: it settles
    NaN, infinite, zero and negative bases and the base 1 itself, and
    hands every other case to the C library's [pow].  What [pow]
    returns is the platform's: the C standard does not ask for a
    correctly rounded result, and a C library may return a neighbour of
    the float nearest to the exact power.  The two calls this code
    makes are taken as they come. *)
Class Libm : Type := {
  pow_2 : float -> float;      (* pow(x, 2.0), x finite, positive, not 1 *)
  pow_half : float -> float    (* pow(x, 0.5), x finite, positive, not 1 *)
}.

(** A C library whose [pow] rounds correctly at these two exponents:
    the platform of the worked examples. *)
#[export] Instance correctly_rounded : Libm := {|
  pow_2 x := PrimFloat.mul x x;
  pow_half x := PrimFloat.sqrt x
|}.

Section FloatPow.
Context {libm : Libm}.

(** [x ** 2], [float_pow] with the exponent 2.0 (an even integer): NaN
    is returned as it is, an infinity as [+inf], a zero as [+0.0]; a
    negative base is negated first; for the others [pow] is called, and
    an infinite result is the range error CPython raises
    [OverflowError] for. *)
Definition float_pow2 (iv : float) : exn + float :=
  if PrimFloat.is_nan iv then inr iv
  else if PrimFloat.is_infinity iv then inr (PrimFloat.abs iv)
  else if PrimFloat.eqb iv PrimFloat.zero then inr PrimFloat.zero
  else
    let iv := if PrimFloat.ltb iv PrimFloat.zero then PrimFloat.opp iv
              else iv in
    if PrimFloat.eqb iv PrimFloat.one then inr PrimFloat.one
    else
      let ix := pow_2 iv in
      if PrimFloat.is_infinity ix then inl OverflowError else inr ix.

(** [x ** 0.5], [float_pow] with the exponent 0.5, in the order of its
    tests: NaN, infinities ([-inf] gives [+inf]), zeros, then a
    negative base, for which the result is a complex number ([None]). *)
Definition float_pow_half (iv : float) : exn + option float :=
  if PrimFloat.is_nan iv then inr (Some iv)
  else if PrimFloat.is_infinity iv then inr (Some (PrimFloat.abs iv))
  else if PrimFloat.eqb iv PrimFloat.zero then inr (Some PrimFloat.zero)
  else if PrimFloat.ltb iv PrimFloat.zero then inr None
  else if PrimFloat.eqb iv PrimFloat.one then inr (Some PrimFloat.one)
  else
    let ix := pow_half iv in
    if PrimFloat.is_infinity ix then inl OverflowError else inr (Some ix).

#[export] Instance float_PyFloat : PyFloat float := {
  fadd := PrimFloat.add;
  fsub := PrimFloat.sub;
  fmul := PrimFloat.mul;
  fdiv := PrimFloat.div;
  fpow2 := float_pow2;
  fpow_half := float_pow_half;
  flt := PrimFloat.ltb;
  fle := PrimFloat.leb;
  feq := PrimFloat.eqb;
  flit := float_of_Q
}.

End FloatPow.

(** ** [round(x, ndigits)]

    Python rounds the exact value of the float to [ndigits] decimals,
    ties to even, and returns the float nearest to that decimal. *)

(** The integer nearest to [num / den] ([den > 0]), ties to even. *)
Definition round_half_even (num den : Z) : Z :=
  let q := num / den in
  match 2 * (num mod den) ?= den with
  | Lt => q
  | Gt => q + 1
  | Eq => if Z.even q then q else q + 1
  end.

(** The float nearest to [n / 10^ndigits] for a positive integer [n],
    with the sign [s]: the correctly rounded quotient of the two
    integers. *)
Definition float_of_decimal (s : bool) (n : positive) (ndigits : Z) : float :=
  SF2Prim (SFdiv prec emax (S754_finite s n 0)
                           (S754_finite false (Z.to_pos (10 ^ ndigits)) 0)).

(** On binary64, for [ndigits >= 0]: a finite [x = m * 2^e] is scaled
    by [10^ndigits] exactly, rounded to an integer [n], and [n /
    10^ndigits] is rounded once to the nearest float; zeros, infinities
    and NaN are returned as they are. *)
Definition float_round (x : float) (ndigits : Z) : float :=
  match Prim2SF x with
  | S754_finite s m e =>
      let p := 10 ^ ndigits in
      let n := round_half_even (Zpos m * p * 2 ^ Z.max e 0) (2 ^ Z.max (- e) 0) in
      match n with
      | Zpos n' => float_of_decimal s n' ndigits
      | _ => if s then PrimFloat.opp PrimFloat.zero else PrimFloat.zero
      end
  | _ => x
  end.

(** *** What rounding to decimals means *)





(** ** Timestamps and slices *)

(** [datetime.now().isoformat()]: the clock is an input of every
    operation that reads it. *)
Definition timestamp : Type := string.

(** A Python slice [l[start:stop]] (step 1) with integer or omitted
    bounds: a negative bound counts from the end, every bound is clipped
    to [0, len(l)], and an empty or inverted range gives []. *)
Definition slice_bound (len : Z) (dflt : Z) (b : option Z) : Z :=
  match b with
  | None => dflt
  | Some i => if i <? 0 then Z.max (i + len) 0 else Z.min i len
  end.

Definition py_slice {A} (l : list A) (start stop : option Z) : list A :=
  let len := Z.of_nat (length l) in
  let lo := slice_bound len 0 start in
  let hi := slice_bound len len stop in
  take (Z.to_nat (hi - lo)) (drop (Z.to_nat lo) l).

(** The idiom both bounded histories are kept with:
    [h.append(x)], then [if len(h) > cap: h = h[-cap:]]. *)
Definition append_bounded {A} (cap : Z) (h : list A) (x : A) : list A :=
  let h := h ++ [x] in
  if cap <? Z.of_nat (length h) then py_slice h (Some (- cap)) None else h.

(** ** JSON values *)

#[local] Unset Elimination Schemes.
Inductive json : Type :=
  | JNull
  | JBool (b : bool)
  | JInt (n : Z)
  | JFloat (x : float)
  | JString (s : string)
  | JArray (items : list json)
  | JObject (members : list (string * json)).
#[local] Set Elimination Schemes.

(** ** Text files

    The services keep their logs in text files they open with
    [open(path, 'a')] and [open(path, 'r')].  A file is absent or has a
    content, the characters it holds. *)

Definition LF : Ascii.ascii := Ascii.ascii_of_nat 10.
Definition CR : Ascii.ascii := Ascii.ascii_of_nat 13.
Definition newline : string := String LF EmptyString.

Inductive file : Type :=
  | Absent
  | Content (text : string).

Definition text_of (f : file) : string :=
  match f with Absent => EmptyString | Content text => text end.

(** The texts of a list one after the other. *)
Definition join (texts : list string) : string :=
  foldr String.append EmptyString texts.

(** What the file system does with one [with open(path, 'a') as f:
    f.write(text)]: the text is appended whole; or [open] raises and
    the file is as it was; or [open] succeeds, creating the file when
    it was absent, and the write (or the flush when the file is closed)
    raises after the first [n] characters have reached the file. *)
Inductive write_outcome : Type :=
  | written
  | open_raises
  | write_raises (n : nat).

(** What of a text reaches the file under an outcome. *)
Definition reached (o : write_outcome) (text : string) : string :=
  match o with
  | written => text
  | open_raises => EmptyString
  | write_raises n => String.substring 0 n text
  end.

(** The file after the statement, and the exception that left it.  On
    the Linux hosts of the services a written ['\n'] is stored as it
    is. *)
Definition append_text (o : write_outcome) (f : file) (text : string)
    : file * option exn :=
  match o with
  | written => (Content (text_of f +:+ text), None)
  | open_raises => (f, Some OSError)
  | write_raises n =>
      (Content (text_of f +:+ String.substring 0 n text), Some OSError)
  end.

(** Reading in text mode translates the line ends ['\r\n'] and ['\r']
    to ['\n'] (universal newlines); [after_cr] tells that the character
    before was a ['\r'], already translated. *)
Fixpoint universal_newlines (after_cr : bool) (text : string) : string :=
  match text with
  | EmptyString => EmptyString
  | String c rest =>
      if Ascii.eqb c CR then String LF (universal_newlines true rest)
      else if Ascii.eqb c LF then
        if after_cr then universal_newlines false rest
        else String LF (universal_newlines false rest)
      else String c (universal_newlines false rest)
  end.

(** The lines of a text, each with the ['\n'] that ends it, and the
    rest after the last ['\n']; [line] is the part already read of the
    line at hand. *)
Fixpoint split_lines (line : string) (text : string) : list string * string :=
  match text with
  | EmptyString => ([], line)
  | String c rest =>
      if Ascii.eqb c LF then
        let '(lines, last) := split_lines EmptyString rest in
        ((line +:+ newline) :: lines, last)
      else split_lines (line +:+ String c EmptyString) rest
  end.

(** The text a file ends with after its last line end: empty when the
    file is empty or ends with a line end. *)
Definition unterminated (text : string) : string :=
  (split_lines EmptyString (universal_newlines false text)).2.

(** The lines of a content that end with a line end. *)
Definition complete_lines (text : string) : list string :=
  (split_lines EmptyString (universal_newlines false text)).1.

(** Whether a text ends with a ['\r'] ([b] for the empty text). *)
Fixpoint ends_with_cr (b : bool) (s : string) : bool :=
  match s with
  | EmptyString => b
  | String c rest => ends_with_cr (Ascii.eqb c CR) rest
  end.

(** [f.readlines()] of a content: its lines, the unterminated rest at
    the end being a line of its own. *)
Definition lines_of_text (text : string) : list string :=
  let '(lines, last) :=
    split_lines EmptyString (universal_newlines false text) in
  lines ++ (if decide (last = EmptyString) then [] else [last]).

(** [open(path, 'r')] then [f.readlines()] of an existing file;
    [io_ok = false] stands for an exception of either (the file cannot
    be opened, or its bytes do not decode). *)
Definition readlines (io_ok : bool) (text : string) : exn + list string :=
  if io_ok then inr (lines_of_text text) else inl OSError.

(** A decoder for the lines of the worked examples: [json.loads] on
    the literal names [null], [true] and [false], with or without the
    newline that ends a line; it rejects every other text. *)
Definition loads_literal (s : string) : option json :=
  if decide (s = "null" ∨ s = "null" +:+ newline) then Some JNull
  else if decide (s = "true" ∨ s = "true" +:+ newline) then Some (JBool true)
  else if decide (s = "false" ∨ s = "false" +:+ newline) then Some (JBool false)
  else None.

(** What [json.dumps] returns is one line of text: it is not empty and
    holds no line end (no [indent] is given, and the control characters
    of a string are escaped). *)
Fixpoint no_line_end (s : string) : bool :=
  match s with
  | EmptyString => true
  | String c rest => negb (Ascii.eqb c CR) && negb (Ascii.eqb c LF) && no_line_end rest
  end.

Definition one_line (s : string) : bool :=
  negb (String.eqb s EmptyString) && no_line_end s.

(** * The telemetry generator and the outstation agent
      ([rtu_outstation.py]) *)
(* ===================================================================== *)

Module Rtu.

Section Simulator.
Context {F : Type} {ops : PyFloat F}.

(** [round(x, ndigits)] of a float. *)
Variable py_round : F -> Z -> F.

(** The attributes of a [TransformerSimulator] object. *)
Record TransformerSimulator : Type := {
  rtu_id : Z;
  min_voltage : F; max_voltage : F;
  min_current : F; max_current : F;
  min_freq : F;    max_freq : F;
  min_temp : F;    max_temp : F;
  voltage : F;
  current : F;
  frequency : F;
  temperature : F
}.

(** The four results of [random.uniform] one call of [__init__] or of
    [get_measurements] consumes, in the order of the calls. *)
Record Draws : Type := {
  dv : F;  (* voltage *)
  dc : F;  (* current *)
  df : F;  (* frequency *)
  dt : F   (* temperature *)
}.

(** [TransformerSimulator.__init__]: the starting values are the draws
    [random.uniform(min, max)] themselves. *)
Definition init (id : Z)
    (min_v max_v min_c max_c min_f max_f min_t max_t : F)
    (u : Draws) : TransformerSimulator :=
  {| rtu_id := id;
     min_voltage := min_v; max_voltage := max_v;
     min_current := min_c; max_current := max_c;
     min_freq := min_f;    max_freq := max_f;
     min_temp := min_t;    max_temp := max_t;
     voltage := dv u;
     current := dc u;
     frequency := df u;
     temperature := dt u |}.

Inductive Health : Type := NORMAL | WARNING.

(** The dict [get_measurements] returns. *)
Record Sample : Type := {
  m_timestamp : timestamp;
  m_rtu_id : Z;
  m_voltage : F;
  m_current : F;
  m_frequency : F;
  m_temperature : F;
  m_real_power_kw : F;
  m_reactive_power_kvar : F;
  m_apparent_power_kva : F;
  m_power_factor : F;
  m_load_percentage : F;
  m_status : Health
}.

(** Lines 52-62: the random walk with its clamp, one field after the
    other; [d] holds the draws [random.uniform(-0.5, 0.5)],
    [random.uniform(-5, 5)], [random.uniform(-0.02, 0.02)] and
    [random.uniform(-0.3, 0.3)]. *)
Definition walk (self : TransformerSimulator) (d : Draws)
    : TransformerSimulator :=
  let v := fadd (voltage self) (dv d) in
  let v := py_max (min_voltage self) (py_min (max_voltage self) v) in
  let c := fadd (current self) (dc d) in
  let c := py_max (min_current self) (py_min (max_current self) c) in
  let f := fadd (frequency self) (df d) in
  let f := py_max (min_freq self) (py_min (max_freq self) f) in
  let t := fadd (temperature self) (dt d) in
  let t := py_max (min_temp self) (py_min (max_temp self) t) in
  {| rtu_id := rtu_id self;
     min_voltage := min_voltage self; max_voltage := max_voltage self;
     min_current := min_current self; max_current := max_current self;
     min_freq := min_freq self;       max_freq := max_freq self;
     min_temp := min_temp self;       max_temp := max_temp self;
     voltage := v; current := c; frequency := f; temperature := t |}.

(** Lines 65-68: the power figures of a state. *)
Definition power_factor : F := flit (95 # 100).
Definition apparent_power (self : TransformerSimulator) : F :=
  fdiv (fmul (fmul (voltage self) (current self)) (flit 3)) (flit 1000).
Definition real_power (self : TransformerSimulator) : F :=
  fmul (apparent_power self) power_factor.
(** [apparent_power ** 2 - real_power ** 2], or the [OverflowError] of
    one of the squares. *)
Definition radicand (self : TransformerSimulator) : exn + F :=
  match fpow2 (apparent_power self) with
  | inl e => inl e
  | inr a2 =>
      match fpow2 (real_power self) with
      | inl e => inl e
      | inr r2 => inr (fsub a2 r2)
      end
  end.

(** Line 68, [(apparent_power ** 2 - real_power ** 2) ** 0.5]: the
    exception one of the three powers raises, or the result, [None]
    when it is a complex number. *)
Definition reactive_power (self : TransformerSimulator) : exn + option F :=
  match radicand self with
  | inl e => inl e
  | inr x => fpow_half x
  end.

(** [get_measurements]: the object after the call and what the call
    returns.  The walk is stored first; after it a power of line 68 can
    raise [OverflowError], the division by [max_current] of line 69
    raises [ZeroDivisionError] on a zero divisor, and [round] of line
    79 raises [TypeError] on a complex [reactive_power]. *)
Definition get_measurements (now : timestamp)
    (self : TransformerSimulator) (d : Draws)
    : TransformerSimulator * (exn + Sample) :=
  let self := walk self d in
  match reactive_power self with
  | inl e => (self, inl e)
  | inr reactive_power =>
      if feq (max_current self) (flit 0) then (self, inl ZeroDivisionError)
      else
        let load_percent :=
          fmul (fdiv (current self) (max_current self)) (flit 100) in
        match reactive_power with
        | None => (self, inl TypeError)
        | Some reactive_power =>
            (self,
             inr {| m_timestamp := now;
                    m_rtu_id := rtu_id self;
                    m_voltage := py_round (voltage self) 2;
                    m_current := py_round (current self) 2;
                    m_frequency := py_round (frequency self) 3;
                    m_temperature := py_round (temperature self) 2;
                    m_real_power_kw := py_round (real_power self) 2;
                    m_reactive_power_kvar := py_round reactive_power 2;
                    m_apparent_power_kva := py_round (apparent_power self) 2;
                    m_power_factor := power_factor;
                    m_load_percentage := py_round load_percent 2;
                    m_status :=
                      if flt (temperature self) (flit 80) then NORMAL
                      else WARNING |})
        end
  end.

(** A generator run: one [get_measurements] call per element, each
    with the clock reading and the draws of that call. *)
Definition run (self : TransformerSimulator)
    (ticks : list (timestamp * Draws)) : TransformerSimulator :=
  foldl (fun s t => fst (get_measurements (fst t) s (snd t))) self ticks.

(** [lo <= x <= hi]. *)
Definition within (lo hi x : F) : Prop :=
  fle lo x = true /\ fle x hi = true.

(** [min <= max] for each configured range. *)
Definition ranges_ok (self : TransformerSimulator) : Prop :=
  fle (min_voltage self) (max_voltage self) = true /\
  fle (min_current self) (max_current self) = true /\
  fle (min_freq self) (max_freq self) = true /\
  fle (min_temp self) (max_temp self) = true.

Definition fields_in_range (self : TransformerSimulator) : Prop :=
  within (min_voltage self) (max_voltage self) (voltage self) /\
  within (min_current self) (max_current self) (current self) /\
  within (min_freq self) (max_freq self) (frequency self) /\
  within (min_temp self) (max_temp self) (temperature self).

End Simulator.

Arguments TransformerSimulator F : clear implicits.
Arguments Draws F : clear implicits.
Arguments Sample F : clear implicits.

(** The simulator [main] constructs when the environment sets none of
    its variables. *)
Definition default_simulator {F} `{PyFloat F} (u : Draws F)
    : TransformerSimulator F :=
  init 1 (flit 380) (flit 420) (flit 100) (flit 800)
       (flit (598 # 10)) (flit (602 # 10)) (flit 20) (flit 85) u.

(** A binary64 run used in the worked examples: starting values near
    the upper ends of the ranges, and two ticks whose perturbations
    push against them. *)
Definition demo_start : Draws float :=
  {| dv := 419.75; dc := 795; df := 60; dt := 84.875 |}%float.

Definition demo_ticks : list (timestamp * Draws float) :=
  [ ("2024-01-01T00:00:00",
     {| dv := 0.12890625; dc := 4.5; df := 0.015625; dt := 0.25 |}%float);
    ("2024-01-01T00:00:05",
     {| dv := 0.00390625; dc := 4.5; df := -0.0078125; dt := -0.125 |}%float) ].


Section Agent.
Context {F : Type} {ops : PyFloat F}.
Variable py_round : F -> Z -> F.

(** [json.dumps] of a measurement dict. *)
Variable json_dumps : Sample F -> string.

(** The stand-in for the field protocol binding. *)
Record MockDNP3Outstation : Type := {
  port : Z;
  mock_running : bool
}.

(** The attributes of a [DNP3OutstationRTU] object.  The outstation is
    the stand-in: the module falls back to it when [pydnp3] cannot be
    imported or initialised. *)
Record DNP3OutstationRTU : Type := {
  a_rtu_id : Z;
  rtu_name : string;
  dnp3_port : Z;
  outstation_addr : Z;
  poll_interval : Z;
  running : bool;
  simulator : TransformerSimulator F;
  outstation : MockDNP3Outstation;
  measurement_history : list (Sample F)
}.

(** A started daemon thread, by its target; each runs
    [while self.running: self.update_measurements(); time.sleep(...)]. *)
Inductive thread : Type := measurement_loop.

(** What the agent acts on besides its own attributes: the threads of
    the process and its measurement log
    [/app/logs/rtu_<id>_measurements.json]. *)
Record process : Type := {
  rtu : DNP3OutstationRTU;
  threads : list thread;
  log_file : file
}.

(** [DNP3OutstationRTU.__init__] with the stand-in outstation. *)
Definition new_rtu (id : Z) (name : string) (dnp3 addr : Z)
    (sim : TransformerSimulator F) (interval : Z) : DNP3OutstationRTU :=
  {| a_rtu_id := id; rtu_name := name; dnp3_port := dnp3;
     outstation_addr := addr; poll_interval := interval;
     running := false;
     simulator := sim;
     outstation := {| port := dnp3; mock_running := false |};
     measurement_history := [] |}.

Definition set_simulator (self : DNP3OutstationRTU)
    (sim : TransformerSimulator F) : DNP3OutstationRTU :=
  {| a_rtu_id := a_rtu_id self; rtu_name := rtu_name self;
     dnp3_port := dnp3_port self; outstation_addr := outstation_addr self;
     poll_interval := poll_interval self; running := running self;
     simulator := sim;
     outstation := outstation self;
     measurement_history := measurement_history self |}.

Definition set_measurement_history (self : DNP3OutstationRTU)
    (h : list (Sample F)) : DNP3OutstationRTU :=
  {| a_rtu_id := a_rtu_id self; rtu_name := rtu_name self;
     dnp3_port := dnp3_port self; outstation_addr := outstation_addr self;
     poll_interval := poll_interval self; running := running self;
     simulator := simulator self;
     outstation := outstation self;
     measurement_history := h |}.

Definition set_running (self : DNP3OutstationRTU) (b : bool)
    : DNP3OutstationRTU :=
  {| a_rtu_id := a_rtu_id self; rtu_name := rtu_name self;
     dnp3_port := dnp3_port self; outstation_addr := outstation_addr self;
     poll_interval := poll_interval self; running := b;
     simulator := simulator self;
     outstation := outstation self;
     measurement_history := measurement_history self |}.

Definition set_outstation (self : DNP3OutstationRTU)
    (o : MockDNP3Outstation) : DNP3OutstationRTU :=
  {| a_rtu_id := a_rtu_id self; rtu_name := rtu_name self;
     dnp3_port := dnp3_port self; outstation_addr := outstation_addr self;
     poll_interval := poll_interval self; running := running self;
     simulator := simulator self;
     outstation := o;
     measurement_history := measurement_history self |}.

(** One tick of the agent: what the clock, the random generator and the
    file system contribute to it. *)
Record tick : Type := {
  t_now : timestamp;
  t_draws : Draws F;
  t_write : write_outcome
}.

(** [update_measurements]: the sample joins the history, the history is
    cut to its last 100 entries, and [json.dumps] of the sample and a
    newline are appended to the log (an exception of the write is
    logged and ignored; the file is as the write left it).  An
    exception of the simulator leaves the method before any of this. *)
Definition update_measurements (t : tick) (p : process)
    : process * (exn + Sample F) :=
  let self := rtu p in
  let '(sim, r) :=
    get_measurements py_round (t_now t) (simulator self) (t_draws t) in
  let self := set_simulator self sim in
  match r with
  | inl e => ({| rtu := self; threads := threads p; log_file := log_file p |},
              inl e)
  | inr measurements =>
      let self :=
        set_measurement_history self
          (append_bounded 100 (measurement_history self) measurements) in
      let log :=
        (append_text (t_write t) (log_file p)
           (json_dumps measurements +:+ newline)).1 in
      ({| rtu := self; threads := threads p; log_file := log |},
       inr measurements)
  end.

(** [MockDNP3Outstation.start]. *)
Definition mock_start (o : MockDNP3Outstation) : MockDNP3Outstation :=
  {| port := port o; mock_running := true |}.

(** [DNP3OutstationRTU.start]: the flag is set, the outstation started,
    and a new thread is created and started on every call. *)
Definition start (p : process) : process :=
  let self := set_running (rtu p) true in
  let self := set_outstation self (mock_start (outstation self)) in
  {| rtu := self;
     threads := threads p ++ [measurement_loop];
     log_file := log_file p |}.

(** [DNP3OutstationRTU.stop]. *)
Definition stop (p : process) : process :=
  {| rtu := set_running (rtu p) false;
     threads := threads p;
     log_file := log_file p |}.

(** A sequence of ticks; the samples they returned, oldest first, or
    the first exception. *)
Fixpoint updates (ts : list tick) (p : process)
    : process * (exn + list (Sample F)) :=
  match ts with
  | [] => (p, inr [])
  | t :: ts =>
      match update_measurements t p with
      | (p, inl e) => (p, inl e)
      | (p, inr m) =>
          match updates ts p with
          | (p, inl e) => (p, inl e)
          | (p, inr ms) => (p, inr (m :: ms))
          end
      end
  end.

(** [_measurement_loop], one iteration per element of [ts] (what the
    clock, the generator and the file system give to that iteration):
    the flag is tested before each update, and an exception of the
    update is caught and logged, after which the loop goes on.  Beside
    the process, what each update returned or raised. *)
Fixpoint _measurement_loop (ts : list tick) (p : process)
    : process * list (exn + Sample F) :=
  match ts with
  | [] => (p, [])
  | t :: ts =>
      if running (rtu p) then
        let '(p, r) := update_measurements t p in
        let '(p, rs) := _measurement_loop ts p in
        (p, r :: rs)
      else (p, [])
  end.

(** The samples among the results of a loop. *)
Definition returned (rs : list (exn + Sample F)) : list (Sample F) :=
  omap (fun r => match r with inr m => Some m | inl _ => None end) rs.

End Agent.

Arguments process F : clear implicits.
Arguments tick F : clear implicits.
Arguments DNP3OutstationRTU F : clear implicits.

(** The agent [main] constructs by default, before [start], on
    binary64, and the [n]-th tick of a run whose clock shows [n] and
    whose perturbations are all zero. *)
Definition demo_process : process float :=
  {| rtu := new_rtu 1 "Substation_1" 20000 10
              (default_simulator demo_start) 5;
     threads := [];
     log_file := Absent |}.

(** What the examples write for a sample in place of [json.dumps]: its
    timestamp (no property below reads the agent's log back). *)
Definition demo_dumps (m : Sample float) : string := m_timestamp m.

Definition demo_tick (n : nat) : tick float :=
  {| t_now := pretty n;
     t_draws := {| dv := 0; dc := 0; df := 0; dt := 0 |}%float;
     t_write := written |}.

End Rtu.

(* ===================================================================== *)
(** * The master coordinator ([scada_master.py]) *)
(* ===================================================================== *)

Module Master.

Inductive ConnectionStatus : Type := DISCONNECTED | CONNECTED | ERROR.

(** One value of the [outstations] dict. *)
Record outstation_config : Type := {
  name : string;
  host : string;
  port : Z;
  address : Z;
  connection_status : ConnectionStatus
}.

(** The attributes of the [SCADAMasterServer] object; [measurement_data]
    is a [defaultdict(list)]. *)
Record SCADAMasterServer : Type := {
  master_id : Z;
  outstations : gmap Z outstation_config;
  measurement_data : gmap Z (list json);
  last_update : gmap Z timestamp;
  running : bool;
  poll_interval : Z
}.

(** A started daemon thread, by its target; each runs
    [while self.running: self.poll_outstations(); time.sleep(...)]. *)
Inductive thread : Type := polling_loop.

(** The records the module's logger emits, by call site. *)
Inductive log_record : Type :=
  | info_configured (n : Z)
  | info_polling (outstation_id : Z) (outstation_name : string)
  | error_polling (outstation_id : Z) (e : exn)
  | error_reading (rtu_id : Z) (e : exn)
  | info_starting (id : Z)
  | info_stopping.

Record process : Type := {
  master : SCADAMasterServer;
  threads : list thread;
  console : list log_record
}.

Definition set_master (p : process) (m : SCADAMasterServer) : process :=
  {| master := m; threads := threads p; console := console p |}.

Definition log (p : process) (r : log_record) : process :=
  {| master := master p; threads := threads p; console := console p ++ [r] |}.

Definition set_outstations (self : SCADAMasterServer)
    (o : gmap Z outstation_config) : SCADAMasterServer :=
  {| master_id := master_id self; outstations := o;
     measurement_data := measurement_data self;
     last_update := last_update self;
     running := running self; poll_interval := poll_interval self |}.

Definition set_measurement_data (self : SCADAMasterServer)
    (d : gmap Z (list json)) : SCADAMasterServer :=
  {| master_id := master_id self; outstations := outstations self;
     measurement_data := d;
     last_update := last_update self;
     running := running self; poll_interval := poll_interval self |}.

Definition set_last_update (self : SCADAMasterServer)
    (u : gmap Z timestamp) : SCADAMasterServer :=
  {| master_id := master_id self; outstations := outstations self;
     measurement_data := measurement_data self;
     last_update := u;
     running := running self; poll_interval := poll_interval self |}.

Definition set_running (self : SCADAMasterServer) (b : bool)
    : SCADAMasterServer :=
  {| master_id := master_id self; outstations := outstations self;
     measurement_data := measurement_data self;
     last_update := last_update self;
     running := b; poll_interval := poll_interval self |}.

Definition set_connection_status (c : outstation_config)
    (st : ConnectionStatus) : outstation_config :=
  {| name := name c; host := host c; port := port c; address := address c;
     connection_status := st |}.

(** [SCADAMasterServer.__init__] with [_configure_outstations]: two
    outstations, keys 1 and 2, both [DISCONNECTED]; the arguments are
    the values read from the environment. *)
Definition new_master (id interval : Z)
    (host1 : string) (port1 addr1 : Z)
    (host2 : string) (port2 addr2 : Z) : SCADAMasterServer :=
  {| master_id := id;
     outstations :=
       <[2 := {| name := "Substation_2"; host := host2; port := port2;
                 address := addr2; connection_status := DISCONNECTED |}]>
       (<[1 := {| name := "Substation_1"; host := host1; port := port1;
                  address := addr1; connection_status := DISCONNECTED |}]> ∅);
     measurement_data := ∅;
     last_update := ∅;
     running := false;
     poll_interval := interval |}.

(** ** [poll_outstations] *)

(** The [try] body for one item of [self.outstations.items()]: the
    subscript [self.outstations[outstation_id]] raises [KeyError] on a
    missing key. *)
Definition poll_try (now : timestamp) (outstation_id : Z)
    (config : outstation_config) (p : process) : process * option exn :=
  let p := log p (info_polling outstation_id (name config)) in
  match outstations (master p) !! outstation_id with
  | None => (p, Some KeyError)
  | Some o =>
      let self :=
        set_outstations (master p)
          (<[outstation_id := set_connection_status o CONNECTED]>
             (outstations (master p))) in
      let self :=
        set_last_update self (<[outstation_id := now]> (last_update self)) in
      (set_master p self, None)
  end.

(** The [except Exception] handler; an exception of its own leaves
    [poll_outstations]. *)
Definition poll_except (outstation_id : Z) (e : exn) (p : process)
    : process * option exn :=
  let p := log p (error_polling outstation_id e) in
  match outstations (master p) !! outstation_id with
  | None => (p, Some KeyError)
  | Some o =>
      (set_master p
         (set_outstations (master p)
            (<[outstation_id := set_connection_status o ERROR]>
               (outstations (master p)))),
       None)
  end.

(** The loop over the items; [now id] is the clock reading taken while
    outstation [id] is polled. *)
Fixpoint poll_items (now : Z -> timestamp)
    (items : list (Z * outstation_config)) (p : process)
    : process * option exn :=
  match items with
  | [] => (p, None)
  | (outstation_id, config) :: items =>
      let '(p, raised) :=
        match poll_try (now outstation_id) outstation_id config p with
        | (p, Some e) => poll_except outstation_id e p
        | (p, None) => (p, None)
        end in
      match raised with
      | Some e => (p, Some e)
      | None => poll_items now items p
      end
  end.

(** [poll_outstations]: the items are those of the dict when the loop
    starts ([map_to_list] fixes an order of iteration). *)
Definition poll_outstations (now : Z -> timestamp) (p : process)
    : process * option exn :=
  poll_items now (map_to_list (outstations (master p))) p.

(** ** [read_measurements_from_log] and [get_current_status] *)

Section Reading.

(** [json.loads]; [None] stands for its [JSONDecodeError]. *)
Variable json_loads : string -> option json.

(** The measurement log of each RTU, and whether reading it succeeds. *)
Variable logs : Z -> file.
Variable io_ok : Z -> bool.

(** [read_measurements_from_log]: the last line of the RTU's log is
    decoded, appended to the RTU's history (cut to its last 1000
    entries) and returned; every exception is logged and gives [None].
    A last line that holds [null] decodes to Python's [None], which is
    appended and returned like any other value ([Some JNull] here): the
    caller receives [None] in both cases. *)
Definition read_measurements_from_log (rtu_id : Z) (p : process)
    : process * option json :=
  match logs rtu_id with
  | Absent => (p, None)
  | Content text =>
      match readlines (io_ok rtu_id) text with
      | inl e => (log p (error_reading rtu_id e), None)
      | inr lines =>
          match last lines with
          | None => (p, None)
          | Some line =>
              match json_loads line with
              | None => (log p (error_reading rtu_id JSONDecodeError), None)
              | Some latest =>
                  let data := measurement_data (master p) in
                  let h := default [] (data !! rtu_id) in
                  (set_master p
                     (set_measurement_data (master p)
                        (<[rtu_id := append_bounded 1000 h latest]> data)),
                   Some latest)
              end
          end
      end
  end.

(** The Python value a caller receives for a result. *)
Definition returned_value (r : option json) : json := default JNull r.

(** What a read of the RTU's log returns. *)
Definition latest_in_log (rtu_id : Z) : option json :=
  match logs rtu_id with
  | Absent => None
  | Content text =>
      match readlines (io_ok rtu_id) text with
      | inl _ => None
      | inr lines => last lines ≫= json_loads
      end
  end.

(** One value of the [outstations] dict of a status. *)
Record outstation_status : Type := {
  s_name : string;
  s_host : string;
  s_port : Z;
  s_connection_status : ConnectionStatus;
  s_last_update : option timestamp;
  s_latest_measurement : option json
}.

Record status : Type := {
  st_master_id : Z;
  st_timestamp : timestamp;
  st_outstations : gmap Z outstation_status
}.

(** The dict built for one outstation; [self.last_update.get(rtu_id)]
    is [None] for an outstation never polled. *)
Definition outstation_entry (self : SCADAMasterServer) (rtu_id : Z)
    (config : outstation_config) (measurement : option json)
    : outstation_status :=
  {| s_name := name config;
     s_host := host config;
     s_port := port config;
     s_connection_status := connection_status config;
     s_last_update := last_update self !! rtu_id;
     s_latest_measurement := measurement |}.

(** The loop of [get_current_status] over the items of the dict. *)
Fixpoint status_items (items : list (Z * outstation_config)) (p : process)
    (acc : gmap Z outstation_status) : process * gmap Z outstation_status :=
  match items with
  | [] => (p, acc)
  | (rtu_id, config) :: items =>
      let '(p, measurement) := read_measurements_from_log rtu_id p in
      status_items items p
        (<[rtu_id := outstation_entry (master p) rtu_id config measurement]>
           acc)
  end.

(** [get_current_status]. *)
Definition get_current_status (now : timestamp) (p : process)
    : process * status :=
  let '(p', outs) :=
    status_items (map_to_list (outstations (master p))) p ∅ in
  (p', {| st_master_id := master_id (master p);
          st_timestamp := now;
          st_outstations := outs |}).

End Reading.

(** Successive reads of one RTU's log, each against the file system of
    its moment; what each returned, oldest first. *)
Fixpoint reads (json_loads : string -> option json) (rtu_id : Z)
    (worlds : list ((Z -> file) * (Z -> bool))) (p : process)
    : process * list (option json) :=
  match worlds with
  | [] => (p, [])
  | w :: worlds =>
      let '(p, r) :=
        read_measurements_from_log json_loads (fst w) (snd w) rtu_id p in
      let '(p, rs) := reads json_loads rtu_id worlds p in
      (p, r :: rs)
  end.

(** The history kept for an RTU ([measurement_data.get(rtu_id, [])]). *)
Definition history (p : process) (rtu_id : Z) : list json :=
  default [] (measurement_data (master p) !! rtu_id).

(** What a process keeps across a read of a log: everything but the
    histories and the console. *)
Definition same_registry (p p' : process) : Prop :=
  outstations (master p') = outstations (master p) /\
  last_update (master p') = last_update (master p) /\
  master_id (master p') = master_id (master p) /\
  running (master p') = running (master p) /\
  poll_interval (master p') = poll_interval (master p) /\
  threads p' = threads p.

(** The history of [k] after a read of its log, as the [dict] holds it:
    grown by the sample read, or as it was when the read gave none. *)
Definition recorded (json_loads : string -> option json)
    (logs : Z -> file) (io_ok : Z -> bool) (p : process) (k : Z)
    : option (list json) :=
  match latest_in_log json_loads logs io_ok k with
  | Some v => Some (append_bounded 1000 (history p k) v)
  | None => measurement_data (master p) !! k
  end.

(** ** [start], [stop] *)

Definition start (p : process) : process :=
  {| master := set_running (master p) true;
     threads := threads p ++ [polling_loop];
     console := console p ++ [info_starting (master_id (master p))] |}.

Definition stop (p : process) : process :=
  {| master := set_running (master p) false;
     threads := threads p;
     console := console p ++ [info_stopping] |}.

(** ** [GET /api/measurements/<rtu_id>] *)

Record measurements_page : Type := {
  pg_rtu_id : Z;
  pg_total_records : Z;
  pg_limit : Z;
  pg_offset : Z;
  pg_measurements : list json
}.

(** [get_measurements]: [limit] and [offset] are the query arguments,
    [None] when absent or not an integer. *)
Definition get_measurements (self : SCADAMasterServer) (rtu_id : Z)
    (limit offset : option Z) : measurements_page :=
  let measurements := default [] (measurement_data self !! rtu_id) in
  let limit := default 100 limit in
  let offset := default 0 offset in
  {| pg_rtu_id := rtu_id;
     pg_total_records := Z.of_nat (length measurements);
     pg_limit := limit;
     pg_offset := offset;
     pg_measurements :=
       py_slice measurements (Some offset) (Some (offset + limit)) |}.

(** ** [GET /api/outstation/<outstation_id>] *)

(** The block of the outstation, or the 404 answer
    [{'error': 'Outstation not found'}]. *)
Inductive outstation_response : Type :=
  | found (s : outstation_status)
  | not_found.

(** [get_outstation]: the whole status is computed, then looked up. *)
Definition get_outstation (json_loads : string -> option json)
    (logs : Z -> file) (io_ok : Z -> bool) (now : timestamp)
    (outstation_id : Z) (p : process) : process * outstation_response :=
  let '(p, st) := get_current_status json_loads logs io_ok now p in
  (p, match st_outstations st !! outstation_id with
      | Some s => found s
      | None => not_found
      end).

(** ** [GET /api/config] *)

Record config_entry : Type := {
  c_id : Z;
  c_name : string;
  c_host : string;
  c_port : Z;
  c_address : Z
}.

Record config : Type := {
  cf_master_id : Z;
  cf_poll_interval : Z;
  cf_outstations : list config_entry
}.

Definition config_entry_of (item : Z * outstation_config) : config_entry :=
  {| c_id := item.1;
     c_name := name item.2;
     c_host := host item.2;
     c_port := port item.2;
     c_address := address item.2 |}.

(** [get_config]: one entry per item of the [outstations] dict. *)
Definition get_config (self : SCADAMasterServer) : config :=
  {| cf_master_id := master_id self;
     cf_poll_interval := poll_interval self;
     cf_outstations := config_entry_of <$> map_to_list (outstations self) |}.

(** The coordinator [main] starts from when the environment sets
    nothing, and a file system in which only RTU 1 has logged: one
    line, holding [true]. *)
Definition demo_process : process :=
  {| master := new_master 1 5 "rtu-substation-1" 20000 10
                          "rtu-substation-2" 20001 11;
     threads := [];
     console := [] |}.

(** A coordinator that has recorded 25 samples, 0 to 24, for RTU 1. *)
Definition demo_recorded : SCADAMasterServer :=
  set_measurement_data (master demo_process)
    (<[1 := JInt <$> seqZ 0 25]> ∅).

Definition demo_logs (rtu_id : Z) : file :=
  if rtu_id =? 1 then Content ("true" +:+ newline) else Absent.

End Master.

(* ===================================================================== *)
(** * The data logger ([data_logger.py]) *)
(* ===================================================================== *)

Module Logger.

(** One value of the [stats] defaultdict. *)
Record stats_record : Type := {
  total_records : Z;
  errors : Z;
  last_update : option timestamp;
  min_values : list (string * json);
  max_values : list (string * json);
  avg_values : list (string * json)
}.

(** The value the defaultdict's factory makes. *)
Definition default_stats : stats_record :=
  {| total_records := 0; errors := 0; last_update := None;
     min_values := []; max_values := []; avg_values := [] |}.

Record DataLogger : Type := {
  scada_server_url : string;
  poll_interval : Z;
  running : bool;
  stats : gmap string stats_record;
  log_path : string
}.

Inductive thread : Type := polling_loop.

(** The names the module binds at its top level, in the order of its
    lines: its imports (line 14 takes [Flask] and [jsonify] from
    [flask]), its logger and application, the class, the three values
    read from the environment and the four functions. *)
Definition module_globals : list string :=
  [ "os"; "json"; "logging"; "time"; "requests"; "datetime"; "Thread";
    "Flask"; "jsonify"; "defaultdict"; "logger"; "app"; "DataLogger";
    "scada_server_url"; "poll_interval"; "data_logger"; "get_stats";
    "health"; "get_logs"; "main" ].

(** Reading a global name inside a function (none of the names below
    is a builtin): [NameError] when the module does not bind it. *)
Definition global (name : string) : exn + unit :=
  if decide (name ∈ module_globals) then inr () else inl NameError.

(** The logger object, the threads of its process and the audit log
    [<log_path>/scada_status.jsonl]. *)
Record process : Type := {
  logger : DataLogger;
  threads : list thread;
  status_file : file
}.

Definition new_logger (url : string) (interval : Z) (path : string)
    : DataLogger :=
  {| scada_server_url := url; poll_interval := interval; running := false;
     stats := ∅; log_path := path |}.

Definition set_stats (self : DataLogger) (s : gmap string stats_record)
    : DataLogger :=
  {| scada_server_url := scada_server_url self;
     poll_interval := poll_interval self; running := running self;
     stats := s; log_path := log_path self |}.

Definition set_running (self : DataLogger) (b : bool) : DataLogger :=
  {| scada_server_url := scada_server_url self;
     poll_interval := poll_interval self; running := b;
     stats := stats self; log_path := log_path self |}.

(** [self.stats[key]] read on the defaultdict. *)
Definition stats_of (self : DataLogger) (key : string) : stats_record :=
  default default_stats (stats self !! key).

(** [self.stats['global']['errors'] += 1]. *)
Definition count_error (self : DataLogger) : DataLogger :=
  let g := stats_of self "global" in
  set_stats self
    (<["global" := {| total_records := total_records g;
                      errors := errors g + 1;
                      last_update := last_update g;
                      min_values := min_values g;
                      max_values := max_values g;
                      avg_values := avg_values g |}]> (stats self)).

(** [self.stats['global']['total_records'] += 1] and
    [self.stats['global']['last_update'] = timestamp]. *)
Definition count_record (self : DataLogger) (now : timestamp) : DataLogger :=
  let g := stats_of self "global" in
  set_stats self
    (<["global" := {| total_records := total_records g + 1;
                      errors := errors g;
                      last_update := Some now;
                      min_values := min_values g;
                      max_values := max_values g;
                      avg_values := avg_values g |}]> (stats self)).

(** What [requests.get(..., timeout=5)] gives: a [RequestException], or
    a response with its status code and body. *)
Inductive http_result : Type :=
  | unreachable
  | response (status_code : Z) (body : string).

Section Service.

(** [json.loads] and [json.dumps]. *)
Variable json_loads : string -> option json.
Variable json_dumps : json -> string.

(** The dict [_process_measurements] writes. *)
Definition status_log (now : timestamp) (data : json) : json :=
  JObject [("timestamp", JString now); ("data", data)].

(** [_process_measurements]: [json.dumps] of the dict and a newline are
    appended to the audit log (an exception of the write is logged and
    ignored; the file is as the write left it), then the counters are
    updated. *)
Definition _process_measurements (now : timestamp) (o : write_outcome)
    (data : json) (p : process) : process :=
  let f :=
    (append_text o (status_file p)
       (json_dumps (status_log now data) +:+ newline)).1 in
  {| logger := count_record (logger p) now;
     threads := threads p;
     status_file := f |}.

(** [poll_scada_server].  A body [response.json()] cannot decode raises
    [requests.exceptions.JSONDecodeError], a [RequestException]. *)
Definition poll_scada_server (now : timestamp) (o : write_outcome)
    (r : http_result) (p : process) : process * option json :=
  let failed :=
    ({| logger := count_error (logger p);
        threads := threads p;
        status_file := status_file p |}, None) in
  match r with
  | unreachable => failed
  | response status_code body =>
      if status_code =? 200 then
        match json_loads body with
        | Some data => (_process_measurements now o data p, Some data)
        | None => failed
        end
      else failed
  end.

(** [get_statistics]. *)
Record statistics : Type := {
  x_timestamp : timestamp;
  x_log_path : string;
  x_poll_interval : Z;
  x_stats : gmap string stats_record
}.

Definition get_statistics (now : timestamp) (p : process)
    : process * statistics :=
  (p, {| x_timestamp := now;
         x_log_path := log_path (logger p);
         x_poll_interval := poll_interval (logger p);
         x_stats := stats (logger p) |}).

(** [GET /api/logs]. *)
Record logs_response : Type := {
  logs : list json;
  count : Z
}.

Definition no_logs : logs_response := {| logs := []; count := 0 |}.

(** The [try] statement of [get_logs] and the [return] after it, with
    [limit] bound: the comprehension decodes every line of
    [lines[-limit:]]; an exception of any part of the read is logged
    and answered with the empty list. *)
Definition get_logs_try (limit : Z) (io_ok : bool) (p : process)
    : logs_response :=
  match status_file p with
  | Absent => no_logs
  | Content text =>
      match readlines io_ok text with
      | inl _ => no_logs
      | inr lines =>
          match mapM json_loads (py_slice lines (Some (- limit)) None) with
          | Some recent_logs =>
              {| logs := recent_logs;
                 count := Z.of_nat (length recent_logs) |}
          | None => no_logs
          end
      end
  end.

(** [get_logs]: line 139 evaluates [request.args.get('limit', 50,
    type=int)] before the [try]; [request] is a global name of the
    module ([query_limit] is what the query string gives for [limit],
    [None] when it is absent or not an integer). *)
Definition get_logs (query_limit : option Z) (io_ok : bool) (p : process)
    : process * (exn + logs_response) :=
  match global "request" with
  | inl e => (p, inl e)
  | inr _ =>
      let limit := default 50 query_limit in
      (p, inr (get_logs_try limit io_ok p))
  end.

(** What Flask answers to [GET /api/logs]: the view's JSON with status
    200, or status 500 when the view raises. *)
Definition api_logs (query_limit : option Z) (io_ok : bool) (p : process)
    : process * (Z * option logs_response) :=
  match get_logs query_limit io_ok p with
  | (p, inl _) => (p, (500, None))
  | (p, inr r) => (p, (200, Some r))
  end.

(** What one iteration of the polling loop meets: the clock, what the
    file system does with an append to the audit log, and the outcome
    of the request. *)
Record poll_input : Type := {
  pi_now : timestamp;
  pi_write : write_outcome;
  pi_result : http_result
}.

(** [_polling_loop], one iteration per element of [inputs]: the flag is
    tested before each poll. *)
Fixpoint _polling_loop (inputs : list poll_input) (p : process) : process :=
  match inputs with
  | [] => p
  | i :: inputs =>
      if running (logger p) then
        _polling_loop inputs
          (poll_scada_server (pi_now i) (pi_write i) (pi_result i) p).1
      else p
  end.

(** What the specification asks of [recent_logs]: the entries of the
    last [limit] lines that decode, the others skipped. *)
Definition recent_logs_skipping (limit : Z) (lines : list string)
    : list json :=
  omap json_loads (drop (length lines - Z.to_nat limit) lines).

End Service.

(** [start], [stop]. *)
Definition start (p : process) : process :=
  {| logger := set_running (logger p) true;
     threads := threads p ++ [polling_loop];
     status_file := status_file p |}.

Definition stop (p : process) : process :=
  {| logger := set_running (logger p) false;
     threads := threads p;
     status_file := status_file p |}.

(** The snapshot a poll obtains: the decoded body of a 200 response. *)
Definition snapshot_of (json_loads : string -> option json)
    (r : http_result) : option json :=
  match r with
  | unreachable => None
  | response status_code body =>
      if status_code =? 200 then json_loads body else None
  end.

(** The snapshots a run of polls obtained. *)
Definition snapshots (json_loads : string -> option json)
    (inputs : list poll_input) : list json :=
  omap (fun i => snapshot_of json_loads (pi_result i)) inputs.

(** The line of the audit log for a snapshot: [json.dumps] of the
    snapshot under [data], beside the timestamp, and a newline. *)
Definition record_line (json_dumps : json -> string) (now : timestamp)
    (data : json) : string :=
  json_dumps (JObject [("timestamp", JString now); ("data", data)])
  +:+ newline.

(** What a poll leaves in the audit log: nothing when it obtained no
    snapshot, and otherwise what reached the file of the snapshot's
    line. *)
Definition text_written (json_loads : string -> option json)
    (json_dumps : json -> string) (i : poll_input) : string :=
  match snapshot_of json_loads (pi_result i) with
  | Some data => reached (pi_write i) (record_line json_dumps (pi_now i) data)
  | None => EmptyString
  end.

(** The lines a run of polls adds to an audit log that takes every
    write whole: one per snapshot obtained. *)
Definition lines_written (json_loads : string -> option json)
    (json_dumps : json -> string) (inputs : list poll_input) : list string :=
  omap (fun i => record_line json_dumps (pi_now i)
                   <$> snapshot_of json_loads (pi_result i)) inputs.

(** A logger whose audit log holds five lines that decode and, in
    fourth place, one that does not. *)
Definition demo_lines : list string :=
  [ "null" +:+ newline; "true" +:+ newline; "false" +:+ newline;
    "{oops" +:+ newline; "null" +:+ newline; "true" +:+ newline ].

Definition demo_process : process :=
  {| logger := new_logger "http://scada-master:8080" 5 "/app/logs";
     threads := [];
     status_file := Content (join demo_lines) |}.

(** A running logger whose audit log ends with a text that no line end
    follows, as a write that failed part-way leaves it. *)
Definition torn_process : process :=
  {| logger :=
       set_running (new_logger "http://scada-master:8080" 5 "/app/logs") true;
     threads := [polling_loop];
     status_file := Content ("true" +:+ newline +:+ "{oops") |}.


End Logger.

(* ===================================================================== *)
(** * Properties *)
(* ===================================================================== *)

(** ** The comparisons of binary64 *)

Lemma SFcompare_refl (x : spec_float) :
  x <> S754_nan -> SFcompare x x = Some Eq.
Proof.
  destruct x as [s|s| |s m e]; intros Hx; try congruence; simpl.
  - reflexivity.
  - by destruct s.
  - destruct s; rewrite Z.compare_refl, Pos.compare_cont_refl; reflexivity.
Qed.

Lemma SFleb_not_nan (x y : spec_float) :
  SFleb x y = true -> x <> S754_nan /\ y <> S754_nan.
Proof.
  unfold SFleb. destruct x, y; simpl; intros Hc; split; congruence.
Qed.

#[export] Instance float_PyFloatOrder {libm : Libm} : PyFloatOrder float.
Proof.
  split; simpl; intros x y.
  - rewrite ltb_spec, leb_spec. unfold SFltb, SFleb.
    by destruct (SFcompare _ _) as [[]|].
  - rewrite !leb_spec. intros Hle.
    destruct (SFleb_not_nan _ _ Hle) as [Hx Hy].
    unfold SFleb. by rewrite !SFcompare_refl.
Qed.

(** ** Slices and bounded histories *)

Section Slices.
Context {A : Type}.
Implicit Types (l h : list A) (x : A).

(** For non-negative bounds, [l[i:i+n]] is [n] elements from position [i]. *)
Lemma py_slice_window l (i n : Z) :
  0 <= i -> 0 <= n ->
  py_slice l (Some i) (Some (i + n)) = take (Z.to_nat n) (drop (Z.to_nat i) l).
Proof.
  intros Hi Hn. unfold py_slice, slice_bound.
  destruct (Z.ltb_spec i 0) as [?|_]; [lia|].
  destruct (Z.ltb_spec (i + n) 0) as [?|_]; [lia|].
  destruct (Z.le_gt_cases (Z.of_nat (length l)) i) as [Hout|Hin].
  - rewrite Z.min_r by lia. rewrite !drop_ge by lia. by rewrite !take_nil.
  - rewrite (Z.min_l i) by lia.
    destruct (Z.le_gt_cases (i + n) (Z.of_nat (length l))) as [Hfit|Hcut].
    + rewrite Z.min_l by lia. do 2 f_equal. lia.
    + rewrite Z.min_r by lia.
      rewrite !take_ge; [done | rewrite length_drop; lia ..].
Qed.


(** For [k > 0], [l[-k:]] is the last [k] elements. *)
Lemma py_slice_last l (k : Z) :
  0 < k -> py_slice l (Some (- k)) None = drop (length l - Z.to_nat k) l.
Proof.
  intros Hk. unfold py_slice, slice_bound.
  destruct (Z.ltb_spec (- k) 0) as [_|?]; [|lia].
  rewrite take_ge by (rewrite length_drop; lia).
  f_equal. lia.
Qed.

(** [l[-0:]] is the whole list, and [l[k:]] drops [k] elements. *)
Lemma py_slice_from l (k : Z) :
  0 <= k -> py_slice l (Some k) None = drop (Z.to_nat k) l.
Proof.
  intros Hk. unfold py_slice, slice_bound.
  destruct (Z.ltb_spec k 0) as [?|_]; [lia|].
  rewrite take_ge by (rewrite length_drop; lia).
  destruct (Z.le_gt_cases (Z.of_nat (length l)) k).
  - rewrite Z.min_r by lia. rewrite !drop_ge by lia. done.
  - rewrite Z.min_l by lia. done.
Qed.

(** Appending under a positive bound keeps the newest [cap] entries. *)
Lemma append_bounded_newest (cap : Z) h x :
  0 < cap ->
  append_bounded cap h x
  = drop (length (h ++ [x]) - Z.to_nat cap) (h ++ [x]).
Proof.
  intros Hcap. unfold append_bounded.
  destruct (Z.ltb_spec cap (Z.of_nat (length (h ++ [x])))) as [Hover|Hfit].
  - by apply py_slice_last.
  - replace (length (h ++ [x]) - Z.to_nat cap)%nat with 0%nat by lia. done.
Qed.

Lemma foldl_append_bounded (cap : Z) (xs : list A) h :
  0 < cap -> (length h <= Z.to_nat cap)%nat ->
  foldl (append_bounded cap) h xs
  = drop (length (h ++ xs) - Z.to_nat cap) (h ++ xs).
Proof.
  intros Hcap. revert h. induction xs as [|x xs IH]; intros h Hh.
  - rewrite app_nil_r. replace (length h - Z.to_nat cap)%nat with 0%nat by lia.
    done.
  - cbn [foldl]. rewrite IH.
    + rewrite append_bounded_newest by done.
      rewrite (cons_middle x h xs), (assoc_L (++)).
      set (k := (length (h ++ [x]) - Z.to_nat cap)%nat).
      rewrite <- (drop_app_le (h ++ [x]) xs k) by lia.
      rewrite drop_drop. f_equal.
      rewrite length_drop, !length_app. subst k. rewrite !length_app.
      cbn [length]. lia.
    + rewrite append_bounded_newest by done. rewrite length_drop. lia.
Qed.

(** From the empty history: the newest [cap] of everything appended. *)
Corollary foldl_append_bounded_nil (cap : Z) (xs : list A) :
  0 < cap ->
  foldl (append_bounded cap) [] xs = drop (length xs - Z.to_nat cap) xs.
Proof. intros Hcap. rewrite foldl_append_bounded by (done || simpl; lia). done. Qed.

End Slices.

(** ** Text files *)

Section Texts.
Implicit Types (s t w line : string) (c : Ascii.ascii).

Lemma string_app_cons c s t : String c s +:+ t = String c (s +:+ t).
Proof. reflexivity. Qed.

Lemma string_app_nil_r s : s +:+ "" = s.
Proof. induction s as [|c s IH]; [done|]. by rewrite string_app_cons, IH. Qed.

Lemma string_app_assoc s t w : (s +:+ t) +:+ w = s +:+ t +:+ w.
Proof.
  induction s as [|c s IH]; [done|]. by rewrite !string_app_cons, IH.
Qed.

Lemma universal_newlines_app (b : bool) s t :
  universal_newlines b (s +:+ t)
  = universal_newlines b s +:+ universal_newlines (ends_with_cr b s) t.
Proof.
  revert b. induction s as [|c s IH]; intros b; [done|].
  rewrite string_app_cons. cbn [universal_newlines ends_with_cr].
  destruct (Ascii.eqb c CR) eqn:Hcr.
  - by rewrite string_app_cons, IH.
  - destruct (Ascii.eqb c LF).
    + destruct b; by rewrite ?string_app_cons, IH.
    + by rewrite string_app_cons, IH.
Qed.

Lemma no_line_end_newlines s :
  no_line_end s = true ->
  universal_newlines false s = s /\ ends_with_cr false s = false.
Proof.
  induction s as [|c s IH]; [done|]. cbn.
  destruct (Ascii.eqb c CR); [done|]. destruct (Ascii.eqb c LF); [done|].
  cbn. intros Hs. destruct (IH Hs) as [-> ->]. done.
Qed.

Lemma one_line_newlines (b : bool) s :
  one_line s = true ->
  universal_newlines b s = s /\ ends_with_cr b s = false.
Proof.
  unfold one_line. destruct s as [|c s]; [done|]. cbn.
  destruct (Ascii.eqb c CR) eqn:Hcr; [done|].
  destruct (Ascii.eqb c LF); [done|]. cbn. intros Hs.
  by destruct (no_line_end_newlines s Hs) as [-> ->].
Qed.

Lemma split_lines_app line s t :
  split_lines line (s +:+ t)
  = let '(ls, rest) := split_lines line s in
    let '(lt, last) := split_lines rest t in
    (ls ++ lt, last).
Proof.
  revert line. induction s as [|c s IH]; intros line.
  - change ("" +:+ t) with t. cbn. by destruct (split_lines line t).
  - rewrite string_app_cons. cbn [split_lines].
    destruct (Ascii.eqb c LF).
    + rewrite IH. destruct (split_lines "" s) as [ls rest].
      by destruct (split_lines rest t).
    + apply IH.
Qed.

Lemma split_lines_no_line_end line s :
  no_line_end s = true -> split_lines line s = ([], line +:+ s).
Proof.
  revert line. induction s as [|c s IH]; intros line.
  - intros _. cbn. by rewrite string_app_nil_r.
  - cbn. destruct (Ascii.eqb c CR); [done|].
    destruct (Ascii.eqb c LF); [done|]. cbn. intros Hs.
    rewrite IH by done. by rewrite string_app_assoc.
Qed.

Lemma lines_of_text_eq t :
  lines_of_text t
  = complete_lines t
    ++ (if decide (unterminated t = "") then [] else [unterminated t]).
Proof.
  unfold lines_of_text, complete_lines, unterminated.
  by destruct (split_lines _ _).
Qed.

(** Appending one line of text and a newline to any content: the
    complete lines stay, and the new line is joined to the text the
    content ended with. *)
Lemma append_record t s :
  one_line s = true ->
  complete_lines (t +:+ s +:+ newline)
  = complete_lines t ++ [unterminated t +:+ s +:+ newline] /\
  unterminated (t +:+ s +:+ newline) = "".
Proof.
  intros Hs. unfold complete_lines, unterminated.
  rewrite universal_newlines_app.
  rewrite (universal_newlines_app _ s newline).
  destruct (one_line_newlines (ends_with_cr false t) s Hs) as [-> ->].
  change (universal_newlines false newline) with newline.
  rewrite split_lines_app.
  destruct (split_lines "" (universal_newlines false t)) as [ls rest].
  assert (Hn : no_line_end s = true).
  { unfold one_line in Hs. by apply andb_prop in Hs as [_ ?]. }
  rewrite split_lines_app, (split_lines_no_line_end rest s Hn).
  cbn. by rewrite string_app_assoc.
Qed.

Lemma lines_after_append t s :
  one_line s = true ->
  lines_of_text (t +:+ s +:+ newline)
  = complete_lines t ++ [unterminated t +:+ s +:+ newline].
Proof.
  intros Hs. rewrite lines_of_text_eq.
  destruct (append_record t s Hs) as [-> ->]. cbn. by rewrite app_nil_r.
Qed.

End Texts.

Section TextsAppended.
Implicit Types (s t w : string).

(** Appending to a content keeps its complete lines, in place. *)
Lemma complete_lines_app t w :
  complete_lines t `prefix_of` complete_lines (t +:+ w).
Proof.
  unfold complete_lines. rewrite universal_newlines_app, split_lines_app.
  destruct (split_lines "" (universal_newlines false t)) as [ls rest].
  destruct (split_lines rest _) as [lw last]. cbn. by apply prefix_app_r.
Qed.

Lemma lines_of_terminated t :
  unterminated t = "" -> lines_of_text t = complete_lines t.
Proof.
  intros Ht. rewrite lines_of_text_eq, Ht. cbn. by rewrite app_nil_r.
Qed.

Lemma lines_after_record t s :
  one_line s = true -> unterminated t = "" ->
  lines_of_text (t +:+ s +:+ newline) = lines_of_text t ++ [s +:+ newline] /\
  unterminated (t +:+ s +:+ newline) = "".
Proof.
  intros Hs Ht. rewrite lines_after_append by done.
  rewrite lines_of_terminated, Ht by done.
  split; [done|]. by apply append_record.
Qed.

End TextsAppended.

(** ** Rounding to decimals *)



(** ** The generator *)

Module RtuTheory.
Import Rtu.

Section Range.
Context {F : Type} {ops : PyFloat F} {ord : PyFloatOrder F}.
Variable py_round : F -> Z -> F.

(** The clamp [max(lo, min(hi, x))] lands in [[lo, hi]] whatever [x]
    is, as soon as [lo <= hi]. *)
Lemma clamp_within (lo hi x : F) :
  fle lo hi = true -> within lo hi (py_max lo (py_min hi x)).
Proof.
  intros Hle. destruct (fle_refl_of_fle _ _ Hle) as [Hlo Hhi].
  unfold within, py_max, py_min.
  destruct (flt x hi) eqn:Hx.
  - destruct (flt lo x) eqn:Hl; auto using flt_fle.
  - destruct (flt lo hi) eqn:Hl; auto.
Qed.

Lemma walk_ranges (self : TransformerSimulator F) (d : Draws F) :
  ranges_ok self -> ranges_ok (walk self d).
Proof. intros H. exact H. Qed.

Lemma walk_in_range (self : TransformerSimulator F) (d : Draws F) :
  ranges_ok self -> fields_in_range (walk self d).
Proof.
  intros (Hv & Hc & Hf & Ht).
  repeat split; simpl; by apply clamp_within.
Qed.

Lemma get_measurements_state (now : timestamp)
    (self : TransformerSimulator F) (d : Draws F) :
  fst (get_measurements py_round now self d) = walk self d.
Proof.
  unfold get_measurements.
  destruct (reactive_power _) as [e|q]; [done|].
  destruct (feq _ _); [done|]. by destruct q.
Qed.

Lemma run_in_range (ticks : list (timestamp * Draws F))
    (self : TransformerSimulator F) :
  ranges_ok self -> fields_in_range self ->
  ranges_ok (run py_round self ticks) /\
  fields_in_range (run py_round self ticks).
Proof.
  revert self. induction ticks as [|t ticks IH]; intros self Hr Hin.
  - by split.
  - unfold run. simpl. rewrite get_measurements_state.
    apply IH; [by apply walk_ranges | by apply walk_in_range].
Qed.

(** C1. With [min <= max] for each of the four configured ranges, the
    voltage, current, frequency and temperature of the generator lie in
    their ranges after [__init__] (whose values are the draws of
    [random.uniform(min, max)], which that function returns within
    [[min, max]]) and after any number of [get_measurements] calls,
    whatever the perturbations drawn: each one is clamped back. *)
Theorem fields_stay_in_range (id : Z)
    (min_v max_v min_c max_c min_f max_f min_t max_t : F)
    (u : Draws F) (ticks : list (timestamp * Draws F)) :
  fle min_v max_v = true -> fle min_c max_c = true ->
  fle min_f max_f = true -> fle min_t max_t = true ->
  within min_v max_v (dv u) -> within min_c max_c (dc u) ->
  within min_f max_f (df u) -> within min_t max_t (dt u) ->
  fields_in_range
    (run py_round
       (init id min_v max_v min_c max_c min_f max_f min_t max_t u) ticks).
Proof.
  intros Hv Hc Hf Ht Uv Uc Uf Ut.
  destruct Uv, Uc, Uf, Ut.
  apply run_in_range; repeat split; simpl; assumption.
Qed.

End Range.

Lemma fields_stay_in_range_witness :
  fields_in_range (run float_round (default_simulator demo_start) demo_ticks).
Proof.
  apply (fields_stay_in_range float_round 1
           (flit 380) (flit 420) (flit 100) (flit 800)
           (flit (598 # 10)) (flit (602 # 10)) (flit 20) (flit 85)
           demo_start demo_ticks);
    try (split; vm_compute; reflexivity); vm_compute; reflexivity.
Defined.

Section Emission.
Context {libm : Libm}.



End Emission.

(** *** The agent's history *)

Section AgentHistory.
Context {F : Type} {ops : PyFloat F}.
Variable py_round : F -> Z -> F.
Variable json_dumps : Sample F -> string.

Lemma update_measurements_history (t : tick F) (p p' : process F)
    (m : Sample F) :
  update_measurements py_round json_dumps t p = (p', inr m) ->
  measurement_history (rtu p')
  = append_bounded 100 (measurement_history (rtu p)) m /\
  threads p' = threads p.
Proof.
  unfold update_measurements.
  destruct (get_measurements _ _ _ _) as [sim [e|m']]; intros [= <- <-]; done.
Qed.

Lemma updates_history (ts : list (tick F)) (p p' : process F)
    (ms : list (Sample F)) :
  updates py_round json_dumps ts p = (p', inr ms) ->
  length ms = length ts /\
  measurement_history (rtu p')
  = foldl (append_bounded 100) (measurement_history (rtu p)) ms.
Proof.
  revert p ms. induction ts as [|t ts IH]; intros p ms; cbn [updates].
  - intros [= <- <-]. done.
  - destruct (update_measurements _ _ t p) as [p1 [e|m]] eqn:E1; [done|].
    destruct (updates _ _ ts p1) as [p2 [e|ms']] eqn:E2; [done|].
    intros [= <- <-].
    destruct (IH _ _ E2) as [Hlen Hh].
    destruct (update_measurements_history _ _ _ _ E1) as [Hh1 _].
    cbn [length foldl]. rewrite Hh, Hh1. by rewrite Hlen.
Qed.

End AgentHistory.

End RtuTheory.

(** ** The coordinator *)

Module MasterTheory.
Import Master.

(** *** Polling *)

(** Case analysis on the membership tests of a list and of its tail. *)
Ltac mem_cases :=
  repeat case_decide; try done;
  exfalso;
  match goal with
  | H : ¬ (_ ∈ _ :: _) |- _ => apply H; first [left | by right]
  | H : _ ∈ _ :: _ |- _ => apply elem_of_cons in H as [?|?]; done
  end.

Lemma poll_items_spec (now : Z -> timestamp)
    (items : list (Z * outstation_config)) (p : process) :
  (forall ic, ic ∈ items -> is_Some (outstations (master p) !! ic.1)) ->
  exists p',
    poll_items now items p = (p', None) /\
    (forall k, outstations (master p') !! k
       = if decide (k ∈ items.*1)
         then (fun c => set_connection_status c CONNECTED)
                <$> outstations (master p) !! k
         else outstations (master p) !! k) /\
    (forall k, last_update (master p') !! k
       = if decide (k ∈ items.*1) then Some (now k)
         else last_update (master p) !! k) /\
    console p'
      = console p ++ ((fun ic => info_polling ic.1 (name ic.2)) <$> items) /\
    threads p' = threads p /\
    measurement_data (master p') = measurement_data (master p).
Proof.
  revert p. induction items as [|[id c] items IH]; intros p Hdom.
  - exists p. cbn. rewrite app_nil_r. repeat split; done.
  - destruct (Hdom (id, c)) as [o Ho]; [left|]. cbn in Ho.
    cbn [poll_items]. unfold poll_try. cbn. rewrite Ho. cbn.
    match goal with |- context [poll_items now items ?q] => set (p1 := q) end.
    destruct (IH p1) as (p' & Hrun & Hout & Hupd & Hcon & Hthr & Hdat).
    { intros ic Hic. subst p1. cbn.
      apply lookup_insert_is_Some'. right. apply Hdom. by right. }
    exists p'. rewrite Hrun. split; [done|].
    subst p1. cbn in Hout, Hupd, Hcon, Hthr, Hdat.
    split; [|split; [|split; [|split]]].
    + intros k. rewrite Hout. cbn [fmap list_fmap fst].
      destruct (decide (k = id)) as [->|Hne].
      * rewrite lookup_insert_eq, Ho. cbn.
        mem_cases.
      * rewrite lookup_insert_ne by done.
        mem_cases.
    + intros k. rewrite Hupd. cbn [fmap list_fmap fst].
      destruct (decide (k = id)) as [->|Hne].
      * rewrite lookup_insert_eq.
        mem_cases.
      * rewrite lookup_insert_ne by done.
        mem_cases.
    + rewrite Hcon. cbn. by rewrite <- (assoc_L (++)).
    + done.
    + done.
Qed.

(** C10. One call of [poll_outstations] returns without raising,
    leaves every configured outstation [CONNECTED] with the clock
    reading of its poll as last update, keeps the set of outstations,
    and logs only the [Polling outstation ...] records: the handler
    that would set [ERROR] is never entered, and no outstation is in
    [ERROR] afterwards. *)
Theorem poll_outstations_connects_all (now : Z -> timestamp) (p : process) :
  exists p',
    poll_outstations now p = (p', None) /\
    (forall k, outstations (master p') !! k
       = (fun c => set_connection_status c CONNECTED)
           <$> outstations (master p) !! k) /\
    (forall k, is_Some (outstations (master p) !! k) ->
       last_update (master p') !! k = Some (now k)) /\
    (forall k c, outstations (master p') !! k = Some c ->
       connection_status c = CONNECTED /\ connection_status c <> ERROR) /\
    (exists polled,
       console p' = console p ++ polled /\
       forall r, r ∈ polled ->
         exists k c, outstations (master p) !! k = Some c /\
                     r = info_polling k (name c)).
Proof.
  unfold poll_outstations.
  destruct (poll_items_spec now (map_to_list (outstations (master p))) p)
    as (p' & Hrun & Hout & Hupd & Hcon & _ & _).
  { intros [k c] Hin. apply elem_of_map_to_list in Hin. cbn. eauto. }
  assert (Hkeys : forall k,
    k ∈ (map_to_list (outstations (master p))).*1
    <-> is_Some (outstations (master p) !! k)).
  { intros k. rewrite list_elem_of_fmap. split.
    - intros ([k' c] & -> & Hin). apply elem_of_map_to_list in Hin. eauto.
    - intros [c Hc]. exists (k, c). split; [done|].
      by apply elem_of_map_to_list. }
  assert (Hout' : forall k, outstations (master p') !! k
       = (fun c => set_connection_status c CONNECTED)
           <$> outstations (master p) !! k).
  { intros k. rewrite Hout. case_decide as Hk; [done|].
    rewrite Hkeys in Hk. apply eq_None_not_Some in Hk. by rewrite Hk. }
  exists p'. split; [done|]. split; [done|]. split; [|split].
  - intros k Hk. rewrite Hupd. by rewrite decide_True by by apply Hkeys.
  - intros k c. rewrite Hout'.
    destruct (outstations (master p) !! k); intros [= <-]; done.
  - eexists. split; [exact Hcon|].
    intros r. rewrite list_elem_of_fmap.
    intros ([k c] & -> & Hin). apply elem_of_map_to_list in Hin. eauto.
Qed.

Lemma poll_outstations_connects_all_witness :
  connection_status
    <$> outstations (master (poll_outstations pretty demo_process).1) !! 2
  = Some CONNECTED /\
  last_update (master (poll_outstations pretty demo_process).1) !! 2
  = Some "2".
Proof.
  destruct (poll_outstations_connects_all pretty demo_process)
    as (p' & Hrun & Hout & Hupd & _).
  rewrite Hrun. cbn [fst]. split.
  - rewrite Hout. vm_compute. reflexivity.
  - rewrite Hupd by (vm_compute; eauto). vm_compute. reflexivity.
Defined.

(** *** Status *)

Section Status.
Variable json_loads : string -> option json.
Variable logs : Z -> file.
Variable io_ok : Z -> bool.

Lemma same_registry_refl (p : process) : same_registry p p.
Proof. repeat split. Qed.

Lemma same_registry_trans (p1 p2 p3 : process) :
  same_registry p1 p2 -> same_registry p2 p3 -> same_registry p1 p3.
Proof.
  unfold same_registry. intros (?&?&?&?&?&?) (?&?&?&?&?&?).
  repeat split; congruence.
Qed.

Lemma read_measurements_spec (rtu_id : Z) (p : process) :
  exists p',
    read_measurements_from_log json_loads logs io_ok rtu_id p
    = (p', latest_in_log json_loads logs io_ok rtu_id) /\
    same_registry p p' /\
    forall k, measurement_data (master p') !! k
      = if decide (k = rtu_id) then recorded json_loads logs io_ok p k
        else measurement_data (master p) !! k.
Proof.
  unfold read_measurements_from_log, recorded, latest_in_log.
  destruct (logs rtu_id) as [|ls] eqn:El.
  { exists p. split; [done|]. split; [apply same_registry_refl|].
    intros k. case_decide; [subst k; by rewrite El | done]. }
  destruct (readlines (io_ok rtu_id) ls) as [e|lines] eqn:Er.
  { eexists. split; [done|]. split; [repeat split|].
    intros k. cbn. case_decide; [subst k; by rewrite El, Er | done]. }
  destruct (last lines) as [line|] eqn:Ela; cbn.
  2:{ exists p. split; [done|]. split; [apply same_registry_refl|].
      intros k. case_decide; [subst k; by rewrite El, Er, Ela | done]. }
  destruct (json_loads line) as [latest|] eqn:Ej; cbn.
  - eexists. split; [done|]. split; [repeat split|].
    intros k. cbn. case_decide.
    + subst k. rewrite El, Er, Ela. cbn. rewrite Ej.
      by rewrite lookup_insert_eq.
    + by rewrite lookup_insert_ne.
  - eexists. split; [done|]. split; [repeat split|].
    intros k. cbn. case_decide; [subst k|done].
    rewrite El, Er, Ela. cbn. by rewrite Ej.
Qed.

Lemma status_items_spec (items : list (Z * outstation_config))
    (p : process) (acc : gmap Z outstation_status) :
  NoDup items.*1 ->
  exists p' acc',
    status_items json_loads logs io_ok items p acc = (p', acc') /\
    same_registry p p' /\
    (forall k, measurement_data (master p') !! k
       = if decide (k ∈ items.*1) then recorded json_loads logs io_ok p k
         else measurement_data (master p) !! k) /\
    (forall k c, (k, c) ∈ items ->
       acc' !! k
       = Some (outstation_entry (master p) k c
                 (latest_in_log json_loads logs io_ok k))) /\
    (forall k, k ∉ items.*1 -> acc' !! k = acc !! k).
Proof.
  revert p acc. induction items as [|[id c] items IH]; intros p acc Hnd.
  - exists p, acc. split; [done|]. split; [apply same_registry_refl|].
    repeat split; try done. intros k c Hin. by apply elem_of_nil in Hin.
  - cbn in Hnd. apply NoDup_cons in Hnd as [Hid Hnd].
    destruct (read_measurements_spec id p) as (p1 & Hread & Hreg1 & Hdat1).
    cbn [status_items]. rewrite Hread.
    destruct (IH p1 (<[id := outstation_entry (master p1) id c
                               (latest_in_log json_loads logs io_ok id)]> acc)
                Hnd)
      as (p' & acc' & Hrun & Hreg & Hdat & Hacc & Hrest).
    exists p', acc'. split; [done|].
    split; [by eapply same_registry_trans|].
    assert (Hlu : last_update (master p1) = last_update (master p))
      by apply Hreg1.
    split; [|split].
    + intros k. rewrite Hdat. cbn [fmap list_fmap fst].
      unfold recorded, history. rewrite !Hdat1.
      destruct (decide (k = id)) as [->|Hne].
      * rewrite decide_False by done. rewrite decide_True by left. done.
      * mem_cases.
    + intros k c' Hin. apply elem_of_cons in Hin as [[= -> ->]|Hin].
      * rewrite Hrest by done. rewrite lookup_insert_eq.
        unfold outstation_entry. by rewrite Hlu.
      * rewrite (Hacc _ _ Hin). unfold outstation_entry. by rewrite Hlu.
    + intros k Hk. cbn in Hk. apply not_elem_of_cons in Hk as [Hne Hk].
      rewrite Hrest by done. by rewrite lookup_insert_ne.
Qed.

End Status.

(** C3 (amended). [get_current_status] returns, for every configured
    outstation, its configuration, status and last update together with
    the sample decoded from the last line of its RTU log ([None] when
    the log is absent, unreadable, empty or its last line does not
    decode); it leaves the outstation records, the last-update map, the
    flags and the threads as they were, but it is not a pure read: for
    every configured outstation whose log gave a sample, that sample is
    appended to the outstation's history (cut to its newest 1000). *)
Theorem status_reads_logs_and_records (json_loads : string -> option json)
    (logs : Z -> file) (io_ok : Z -> bool) (now : timestamp) (p : process) :
  exists p' st,
    get_current_status json_loads logs io_ok now p = (p', st) /\
    same_registry p p' /\
    st_master_id st = master_id (master p) /\
    st_timestamp st = now /\
    (forall k, st_outstations st !! k
       = (fun c => outstation_entry (master p) k c
                     (latest_in_log json_loads logs io_ok k))
           <$> outstations (master p) !! k) /\
    (forall k, measurement_data (master p') !! k
       = if decide (is_Some (outstations (master p) !! k))
         then recorded json_loads logs io_ok p k
         else measurement_data (master p) !! k).
Proof.
  unfold get_current_status.
  destruct (status_items_spec json_loads logs io_ok
              (map_to_list (outstations (master p))) p ∅
              (NoDup_fst_map_to_list _))
    as (p' & acc' & Hrun & Hreg & Hdat & Hacc & Hrest).
  rewrite Hrun. exists p'. eexists. split; [done|]. cbn.
  assert (Hkeys : forall k,
    k ∈ (map_to_list (outstations (master p))).*1
    <-> is_Some (outstations (master p) !! k)).
  { intros k. rewrite list_elem_of_fmap. split.
    - intros ([k' c] & -> & Hin). apply elem_of_map_to_list in Hin. eauto.
    - intros [c Hc]. exists (k, c). split; [done|].
      by apply elem_of_map_to_list. }
  repeat split; try apply Hreg.
  - intros k. destruct (outstations (master p) !! k) as [c|] eqn:Hk; cbn.
    + apply Hacc. by apply elem_of_map_to_list.
    + rewrite Hrest; [done|]. rewrite Hkeys, Hk. by intros [? ?].
  - intros k. rewrite Hdat.
    case_decide as Hin; case_decide as Hs; try done; exfalso.
    + by apply Hs, Hkeys.
    + by apply Hin, Hkeys.
Qed.

(** C3, as stated, fails: from the initial coordinator, with one line
    in the log of RTU 1, a status request leaves a history for RTU 1
    where there was none. *)
Lemma status_is_not_a_pure_read :
  measurement_data (master demo_process) !! 1 = None /\
  measurement_data
    (master (get_current_status loads_literal demo_logs (fun _ => true)
               "2024-01-01T00:00:00" demo_process).1) !! 1
  = Some [JBool true].
Proof. split; vm_compute; reflexivity. Qed.

(** *** Histories *)

Lemma reads_history (json_loads : string -> option json) (rtu_id : Z)
    (worlds : list ((Z -> file) * (Z -> bool))) (p : process) :
  exists p' rs,
    reads json_loads rtu_id worlds p = (p', rs) /\
    rs = (fun w => latest_in_log json_loads w.1 w.2 rtu_id) <$> worlds /\
    history p' rtu_id
    = foldl (append_bounded 1000) (history p rtu_id) (omap (fun r => r) rs).
Proof.
  revert p. induction worlds as [|w worlds IH]; intros p.
  - exists p, []. done.
  - destruct (read_measurements_spec json_loads w.1 w.2 rtu_id p)
      as (p1 & Hread & _ & Hdat).
    destruct (IH p1) as (p' & rs & Hrun & Hrs & Hh).
    cbn [reads]. rewrite Hread, Hrun. eexists _, _. split; [done|].
    split; [by rewrite Hrs|].
    assert (Hh1 : history p1 rtu_id
      = match latest_in_log json_loads w.1 w.2 rtu_id with
        | Some v => append_bounded 1000 (history p rtu_id) v
        | None => history p rtu_id
        end).
    { unfold history. rewrite Hdat, decide_True by done. unfold recorded.
      by destruct (latest_in_log json_loads w.1 w.2 rtu_id). }
    rewrite Hh, Hh1. cbn [omap list_omap].
    by destruct (latest_in_log json_loads w.1 w.2 rtu_id).
Qed.

(** *** Pages *)



End MasterTheory.


(** ** The data logger *)

Module LoggerTheory.
Import Logger.

Lemma append_text_content (o : write_outcome) (f : file) (text : string) :
  text_of (append_text o f text).1 = text_of f +:+ reached o text.
Proof. destruct o; cbn; [done | by rewrite string_app_nil_r | done]. Qed.

Section Service.
Variable json_loads : string -> option json.
Variable json_dumps : json -> string.

(** The counters and the audit log after a poll, for every outcome of
    the request and of the write. *)
Lemma poll_scada_server_spec (now : timestamp) (o : write_outcome)
    (r : http_result) (p : process) :
  let g := stats_of (logger p) "global" in
  let p' := (poll_scada_server json_loads json_dumps now o r p).1 in
  let g' := stats_of (logger p') "global" in
  (poll_scada_server json_loads json_dumps now o r p).2
    = snapshot_of json_loads r /\
  threads p' = threads p /\
  (forall k, k <> "global" ->
     stats (logger p') !! k = stats (logger p) !! k) /\
  match snapshot_of json_loads r with
  | Some data =>
      total_records g' = total_records g + 1 /\
      errors g' = errors g /\
      last_update g' = Some now /\
      status_file p'
      = (append_text o (status_file p) (record_line json_dumps now data)).1
  | None =>
      errors g' = errors g + 1 /\
      total_records g' = total_records g /\
      last_update g' = last_update g /\
      status_file p' = status_file p
  end.
Proof.
  unfold poll_scada_server, snapshot_of.
  destruct r as [|code body]; cbn.
  - unfold stats_of, count_error; cbn. rewrite lookup_insert_eq; cbn.
    repeat split. intros k Hk. by rewrite lookup_insert_ne.
  - destruct (code =? 200); cbn.
    + destruct (json_loads body) as [data|]; cbn.
      * unfold stats_of, count_record; cbn. rewrite lookup_insert_eq; cbn.
        repeat split. intros k Hk. by rewrite lookup_insert_ne.
      * unfold stats_of, count_error; cbn. rewrite lookup_insert_eq; cbn.
        repeat split. intros k Hk. by rewrite lookup_insert_ne.
    + unfold stats_of, count_error; cbn. rewrite lookup_insert_eq; cbn.
      repeat split. intros k Hk. by rewrite lookup_insert_ne.
Qed.


(** C7. [get_logs] raises [NameError] on every request, whatever the
    query, the audit log and the decoder are: the module never binds
    [request], which line 139 reads before the [try]; Flask answers
    status 500.  So it is with the audit log of five well-formed lines
    and one malformed line and [limit = 10], for which the
    specification asks the five entries. *)
Theorem get_logs_raises_NameError :
  (forall (query_limit : option Z) (io_ok : bool) (p : process),
     get_logs json_loads query_limit io_ok p = (p, inl NameError) /\
     api_logs json_loads query_limit io_ok p = (p, (500, None))) /\
  get_logs loads_literal (Some 10) true demo_process
  = (demo_process, inl NameError) /\
  lines_of_text (text_of (status_file demo_process)) = demo_lines /\
  recent_logs_skipping loads_literal 10 demo_lines
  = [JNull; JBool true; JBool false; JNull; JBool true].
Proof.
  split; [|split; [|split]]; try (vm_compute; reflexivity).
  intros query_limit io_ok p. split; reflexivity.
Qed.

End Service.

End LoggerTheory.

(** ** Histories and loops, across the services *)

Section Histories.

(** C2 (amended). A history that starts empty holds, after any number
    of successful updates (the agent, capacity 100) or of reads that
    returned a sample (the coordinator, capacity 1000, for each
    outstation on its own), the newest entries in arrival order: all of
    them up to the capacity, and beyond it exactly [capacity] entries,
    the last [capacity] arrivals, the older ones having been evicted
    first-in first-out. *)
Theorem histories_keep_the_newest :
  (forall (F : Type) (ops : PyFloat F) (py_round : F -> Z -> F)
          (json_dumps : Rtu.Sample F -> string)
          (ts : list (Rtu.tick F)) (p p' : Rtu.process F)
          (ms : list (Rtu.Sample F)),
     Rtu.measurement_history (Rtu.rtu p) = [] ->
     Rtu.updates py_round json_dumps ts p = (p', inr ms) ->
     length ms = length ts /\
     Rtu.measurement_history (Rtu.rtu p') = drop (length ms - 100) ms /\
     (100 < length ms ->
      length (Rtu.measurement_history (Rtu.rtu p')) = 100)%nat) /\
  (forall (json_loads : string -> option json) (rtu_id : Z)
          (worlds : list ((Z -> file) * (Z -> bool))) (p : Master.process),
     Master.history p rtu_id = [] ->
     let out := Master.reads json_loads rtu_id worlds p in
     let ms := omap (fun r => r) out.2 in
     Master.history out.1 rtu_id = drop (length ms - 1000) ms /\
     (1000 < length ms -> length (Master.history out.1 rtu_id) = 1000)%nat).
Proof.
  split.
  - intros F ops py_round json_dumps ts p p' ms Hnil Hrun.
    destruct (RtuTheory.updates_history _ _ _ _ _ _ Hrun) as [Hlen Hh].
    rewrite Hnil, foldl_append_bounded_nil in Hh by lia.
    split; [done|]. split; [done|].
    intros Hover. rewrite Hh, length_drop. lia.
  - intros json_loads rtu_id worlds p Hnil out ms.
    destruct (MasterTheory.reads_history json_loads rtu_id worlds p)
      as (p' & rs & Hrun & _ & Hh).
    subst out ms. rewrite Hrun. cbn [fst snd].
    rewrite Hnil, foldl_append_bounded_nil in Hh by lia.
    split; [done|].
    intros Hover. rewrite Hh, length_drop. lia.
Qed.

Lemma histories_keep_the_newest_witness :
  length (Rtu.measurement_history
            (Rtu.rtu (Rtu.updates float_round Rtu.demo_dumps
                        (Rtu.demo_tick <$> seq 0 101) Rtu.demo_process).1))
  = 100%nat.
Proof.
  destruct (Rtu.updates float_round Rtu.demo_dumps
              (Rtu.demo_tick <$> seq 0 101) Rtu.demo_process)
    as [p' [e|ms]] eqn:Hrun.
  - vm_compute in Hrun. discriminate Hrun.
  - destruct (proj1 histories_keep_the_newest float _ float_round
                Rtu.demo_dumps _ Rtu.demo_process p' ms eq_refl Hrun)
      as (Hlen & _ & Hfull).
    apply Hfull. rewrite Hlen. vm_compute. lia.
Defined.

(** C2, as stated, fails: after 101 updates of the agent the history
    has 100 entries, and they are the arrivals 1 to 100, not the oldest
    hundred (0 to 99): the entry that arrived first is gone. *)
Lemma the_oldest_sample_is_evicted :
  match Rtu.updates float_round Rtu.demo_dumps
          (Rtu.demo_tick <$> seq 0 101) Rtu.demo_process with
  | (p, inr ms) =>
      length ms = 101%nat /\
      length (Rtu.measurement_history (Rtu.rtu p)) = 100%nat /\
      Rtu.m_timestamp <$> Rtu.measurement_history (Rtu.rtu p)
        = Rtu.m_timestamp <$> drop 1 ms /\
      Rtu.m_timestamp <$> head (Rtu.measurement_history (Rtu.rtu p))
        = Some "1" /\
      Rtu.m_timestamp <$> head (take 100 ms) = Some "0" /\
      Rtu.measurement_history (Rtu.rtu p) <> take 100 ms
  | (_, inl _) => False
  end.
Proof.
  vm_compute. repeat (split; [reflexivity|]).
  intros H. injection H as H _. discriminate H.
Qed.

End Histories.

Section Loops.

(** C4 (amended). [start] has no guard: every call sets the running
    flag and creates and starts one more loop thread, on the agent and
    on the coordinator alike, so [n] calls leave [n] more loops than
    there were, two calls two. *)
Theorem start_starts_a_loop_per_call :
  (forall (F : Type) (p : Rtu.process F) (n : nat),
     Rtu.threads (Nat.iter n Rtu.start p)
       = Rtu.threads p ++ replicate n Rtu.measurement_loop /\
     Rtu.running (Rtu.rtu (Rtu.start p)) = true /\
     Rtu.mock_running (Rtu.outstation (Rtu.rtu (Rtu.start p))) = true) /\
  (forall (p : Master.process) (n : nat),
     Master.threads (Nat.iter n Master.start p)
       = Master.threads p ++ replicate n Master.polling_loop /\
     Master.running (Master.master (Master.start p)) = true).
Proof.
  split.
  - intros F p n. split; [|done].
    induction n as [|n IH].
    + cbn. by rewrite app_nil_r.
    + change (Nat.iter (S n) Rtu.start p)
        with (Rtu.start (Nat.iter n Rtu.start p)).
      unfold Rtu.start at 1. cbn [Rtu.threads]. rewrite IH.
      rewrite <- (assoc_L (++)). f_equal.
      change [Rtu.measurement_loop] with (replicate 1 Rtu.measurement_loop).
      rewrite <- replicate_add. f_equal. lia.
  - intros p n. split; [|done].
    induction n as [|n IH].
    + cbn. by rewrite app_nil_r.
    + change (Nat.iter (S n) Master.start p)
        with (Master.start (Nat.iter n Master.start p)).
      unfold Master.start at 1. cbn [Master.threads]. rewrite IH.
      rewrite <- (assoc_L (++)). f_equal.
      change [Master.polling_loop] with (replicate 1 Master.polling_loop).
      rewrite <- replicate_add. f_equal. lia.
Qed.

(** C4, as stated, fails: starting the agent, or the coordinator, twice
    leaves two loops running, not one. *)
Lemma starting_twice_runs_two_loops :
  Rtu.threads (Rtu.start (Rtu.start Rtu.demo_process))
    = [Rtu.measurement_loop; Rtu.measurement_loop] /\
  Rtu.running (Rtu.rtu (Rtu.start (Rtu.start Rtu.demo_process))) = true /\
  Master.threads (Master.start (Master.start Master.demo_process))
    = [Master.polling_loop; Master.polling_loop] /\
  Master.running (Master.master (Master.start (Master.start Master.demo_process)))
    = true.
Proof. repeat split. Qed.

End Loops.

(* ===================================================================== *)
(** * Further properties of the code *)
(* ===================================================================== *)

(** ** Bounded histories *)

Section HistoryEnds.
Context {A : Type}.

(** The entry just appended is the last one of the history. *)
Lemma append_bounded_last (cap : Z) (h : list A) (x : A) :
  0 < cap -> last (append_bounded cap h x) = Some x.
Proof.
  intros Hcap. rewrite append_bounded_newest by done.
  rewrite drop_app_le by (rewrite length_app; cbn; lia).
  apply last_snoc.
Qed.

(** A bounded history never exceeds its capacity once appended to. *)
Lemma append_bounded_length (cap : Z) (h : list A) (x : A) :
  0 < cap -> (length (append_bounded cap h x) <= Z.to_nat cap)%nat.
Proof.
  intros Hcap. rewrite append_bounded_newest by done.
  rewrite length_drop. lia.
Qed.

End HistoryEnds.

(** ** The generator and the agent *)

Module RtuExtra.
Import Rtu.

(** *** NaN on binary64 *)

Section Binary64.
Context {libm : Libm}.

Lemma ltb_true_not_nan (x y : float) :
  PrimFloat.ltb x y = true -> PrimFloat.is_nan x = false.
Proof.
  rewrite FloatAxioms.ltb_spec. unfold PrimFloat.is_nan.
  rewrite FloatAxioms.eqb_spec.
  unfold SFltb, SFeqb. intros Hlt.
  rewrite SFcompare_refl; [done|].
  intros Hnan. rewrite Hnan in Hlt. done.
Qed.

Lemma clamp_not_nan (lo hi x : float) :
  PrimFloat.is_nan lo = false -> PrimFloat.is_nan hi = false ->
  PrimFloat.is_nan (py_max lo (py_min hi x)) = false.
Proof.
  intros Hlo Hhi. unfold py_max, py_min. cbn [flt float_PyFloat].
  destruct (PrimFloat.ltb x hi) eqn:Hx.
  - destruct (PrimFloat.ltb lo x); [by eapply ltb_true_not_nan | done].
  - destruct (PrimFloat.ltb lo hi); done.
Qed.

(** X1. On binary64, when none of the eight configured bounds is NaN,
    no field of the state is NaN after a [get_measurements] call,
    whatever the state before and the perturbations drawn were (NaN and
    infinities included) and whether or not [min <= max]. *)
Theorem nan_is_never_stored (rnd : float -> Z -> float) (now : timestamp)
    (self : TransformerSimulator float) (d : Draws float) :
  PrimFloat.is_nan (min_voltage self) = false ->
  PrimFloat.is_nan (max_voltage self) = false ->
  PrimFloat.is_nan (min_current self) = false ->
  PrimFloat.is_nan (max_current self) = false ->
  PrimFloat.is_nan (min_freq self) = false ->
  PrimFloat.is_nan (max_freq self) = false ->
  PrimFloat.is_nan (min_temp self) = false ->
  PrimFloat.is_nan (max_temp self) = false ->
  let s := (get_measurements rnd now self d).1 in
  PrimFloat.is_nan (voltage s) = false /\
  PrimFloat.is_nan (current s) = false /\
  PrimFloat.is_nan (frequency s) = false /\
  PrimFloat.is_nan (temperature s) = false.
Proof.
  intros Hv Hv' Hc Hc' Hf Hf' Ht Ht' s. subst s.
  rewrite RtuTheory.get_measurements_state.
  repeat split; cbn [walk voltage current frequency temperature];
    by apply clamp_not_nan.
Qed.

End Binary64.

Lemma nan_is_never_stored_witness :
  let s :=
    (get_measurements float_round "2024-01-01T00:00:00"
       (default_simulator
          {| dv := PrimFloat.nan; dc := PrimFloat.infinity;
             df := 60; dt := 50 |}%float)
       {| dv := PrimFloat.nan; dc := PrimFloat.nan;
          df := PrimFloat.neg_infinity; dt := 0 |}%float).1 in
  PrimFloat.is_nan (voltage s) = false /\
  PrimFloat.is_nan (current s) = false /\
  PrimFloat.is_nan (frequency s) = false /\
  PrimFloat.is_nan (temperature s) = false.
Proof.
  apply (nan_is_never_stored float_round); vm_compute; reflexivity.
Defined.

(** *** The agent *)

Section AgentExtra.
Context {F : Type} {ops : PyFloat F}.
Variable py_round : F -> Z -> F.
Variable json_dumps : Sample F -> string.

Lemma update_measurements_spec (t : tick F) (p : process F) :
  let out := update_measurements py_round json_dumps t p in
  simulator (rtu out.1) = walk (simulator (rtu p)) (t_draws t) /\
  running (rtu out.1) = running (rtu p) /\
  threads out.1 = threads p /\
  match out.2 with
  | inl _ =>
      measurement_history (rtu out.1) = measurement_history (rtu p) /\
      log_file out.1 = log_file p
  | inr m =>
      measurement_history (rtu out.1)
      = append_bounded 100 (measurement_history (rtu p)) m /\
      log_file out.1
      = (append_text (t_write t) (log_file p)
           (json_dumps m +:+ newline)).1
  end.
Proof.
  cbv zeta. unfold update_measurements.
  pose proof (RtuTheory.get_measurements_state py_round (t_now t)
                (simulator (rtu p)) (t_draws t)) as Hs.
  destruct (get_measurements _ _ _ _) as [sim [e|m]]; cbn in Hs; subst sim;
    cbn; repeat split.
Qed.

(** X5. An [update_measurements] call that raises has advanced the
    simulator but leaves the history and the log file as they were; one
    that returns a sample has made it the last entry of the history
    (never longer than 100) and has appended the text [json.dumps] of
    the sample and a newline to the content of the log, whatever that
    content ended with; if [open] raised the log is as it was, if the
    write raised part-way the log has grown by the part written, and
    the sample is in the history all the same. *)
Theorem update_is_all_or_nothing_but_for_the_log (t : tick F)
    (p : process F) :
  let out := update_measurements py_round json_dumps t p in
  simulator (rtu out.1) = walk (simulator (rtu p)) (t_draws t) /\
  match out.2 with
  | inl _ =>
      measurement_history (rtu out.1) = measurement_history (rtu p) /\
      log_file out.1 = log_file p
  | inr m =>
      last (measurement_history (rtu out.1)) = Some m /\
      (length (measurement_history (rtu out.1)) <= 100)%nat /\
      log_file out.1
      = match t_write t with
        | written =>
            Content (text_of (log_file p) +:+ json_dumps m +:+ newline)
        | open_raises => log_file p
        | write_raises n =>
            Content (text_of (log_file p)
                     +:+ String.substring 0 n (json_dumps m +:+ newline))
        end
  end.
Proof.
  pose proof (update_measurements_spec t p) as H. cbv zeta in *.
  destruct H as (Hsim & _ & _ & H). split; [done|].
  destruct (update_measurements py_round json_dumps t p).2 as [e|m]; [done|].
  destruct H as [Hh Hl]. rewrite Hh.
  split; [by apply append_bounded_last|].
  split; [by apply (append_bounded_length 100)|].
  rewrite Hl. by destruct (t_write t).
Qed.

Lemma _measurement_loop_spec (ts : list (tick F)) (p : process F) :
  running (rtu p) = true ->
  let out := _measurement_loop py_round json_dumps ts p in
  length out.2 = length ts /\
  running (rtu out.1) = true /\
  threads out.1 = threads p /\
  simulator (rtu out.1)
  = run py_round (simulator (rtu p))
      ((fun t => (t_now t, t_draws t)) <$> ts) /\
  measurement_history (rtu out.1)
  = foldl (append_bounded 100) (measurement_history (rtu p))
      (returned out.2).
Proof.
  revert p. induction ts as [|t ts IH]; intros p Hrun; cbv zeta.
  - cbn. done.
  - cbn [_measurement_loop]. rewrite Hrun.
    pose proof (update_measurements_spec t p) as H. cbv zeta in H.
    destruct (update_measurements py_round json_dumps t p) as [p1 r].
    cbn [fst snd] in H. destruct H as (Hsim & Hr & Hth & H).
    specialize (IH p1 ltac:(congruence)). cbv zeta in IH.
    destruct (_measurement_loop py_round json_dumps ts p1) as [p2 rs].
    cbn [fst snd] in *. destruct IH as (Hlen & Hr2 & Hth2 & Hsim2 & Hh2).
    split; [cbn [length]; by rewrite Hlen|]. split; [done|].
    split; [congruence|].
    split.
    + rewrite Hsim2, Hsim. unfold run. cbn.
      by rewrite RtuTheory.get_measurements_state.
    + rewrite Hh2. unfold returned. cbn [omap list_omap].
      destruct r as [e|m]; destruct H as [Hh _]; by rewrite Hh.
Qed.

(** X6. [_measurement_loop] does nothing on an agent that is not
    running, in particular after [stop]; on a running agent it attempts
    one update per tick and an update that raises does not end it: the
    simulator has walked through every tick, and the history is the
    bounded history of the samples of the updates that returned. *)
Theorem the_loop_outlives_failed_updates (ts : list (tick F))
    (p : process F) :
  (running (rtu p) = false ->
   _measurement_loop py_round json_dumps ts p = (p, [])) /\
  _measurement_loop py_round json_dumps ts (stop p) = (stop p, []) /\
  (running (rtu p) = true ->
   let out := _measurement_loop py_round json_dumps ts p in
   length out.2 = length ts /\
   simulator (rtu out.1)
   = run py_round (simulator (rtu p))
       ((fun t => (t_now t, t_draws t)) <$> ts) /\
   measurement_history (rtu out.1)
   = foldl (append_bounded 100) (measurement_history (rtu p))
       (returned out.2)).
Proof.
  split; [|split].
  - intros Hoff. destruct ts; cbn; [done|]. by rewrite Hoff.
  - destruct ts; cbn; done.
  - intros Hon. pose proof (_measurement_loop_spec ts p Hon) as H.
    cbv zeta in *. tauto.
Qed.

End AgentExtra.

Lemma the_loop_outlives_failed_updates_witness :
  length
    (measurement_history
       (rtu (_measurement_loop float_round demo_dumps
               (demo_tick <$> seq 0 3) (start demo_process)).1))
  = 3%nat.
Proof.
  destruct (the_loop_outlives_failed_updates float_round demo_dumps
              (demo_tick <$> seq 0 3) (start demo_process))
    as (_ & _ & Hon).
  destruct (Hon eq_refl) as (_ & _ & Hh).
  rewrite Hh. vm_compute. reflexivity.
Defined.

End RtuExtra.

(** ** The coordinator *)

Module MasterExtra.
Import Master.

(** *** Polling *)

Lemma poll_items_frame (now : Z -> timestamp)
    (items : list (Z * outstation_config)) (p : process) :
  let out := poll_items now items p in
  master_id (master out.1) = master_id (master p) /\
  running (master out.1) = running (master p) /\
  poll_interval (master out.1) = poll_interval (master p).
Proof.
  revert p. induction items as [|[id c] items IH]; intros p; cbv zeta.
  - done.
  - cbn [poll_items]. unfold poll_try, poll_except. cbn.
    destruct (outstations (master p) !! id) as [o|] eqn:E; cbn;
      rewrite ?E; cbn.
    + match goal with |- context [poll_items now items ?q] =>
        specialize (IH q) end.
      cbv zeta in IH. cbn in IH. exact IH.
    + done.
Qed.

Lemma poll_outstations_spec (now : Z -> timestamp) (p : process) :
  exists p',
    poll_outstations now p = (p', None) /\
    outstations (master p')
    = (fun c => set_connection_status c CONNECTED) <$> outstations (master p) /\
    (forall k, last_update (master p') !! k
       = if decide (is_Some (outstations (master p) !! k))
         then Some (now k) else last_update (master p) !! k) /\
    measurement_data (master p') = measurement_data (master p) /\
    threads p' = threads p /\
    master_id (master p') = master_id (master p) /\
    running (master p') = running (master p) /\
    poll_interval (master p') = poll_interval (master p).
Proof.
  unfold poll_outstations.
  pose proof (poll_items_frame now (map_to_list (outstations (master p))) p)
    as Hframe. cbv zeta in Hframe.
  destruct (MasterTheory.poll_items_spec now
              (map_to_list (outstations (master p))) p)
    as (p' & Hrun & Hout & Hupd & _ & Hthr & Hdat).
  { intros [k c] Hin. apply elem_of_map_to_list in Hin. cbn. eauto. }
  rewrite Hrun in Hframe. cbn [fst] in Hframe.
  assert (Hkeys : forall k,
    k ∈ (map_to_list (outstations (master p))).*1
    <-> is_Some (outstations (master p) !! k)).
  { intros k. rewrite list_elem_of_fmap. split.
    - intros ([k' c] & -> & Hin). apply elem_of_map_to_list in Hin. eauto.
    - intros [c Hc]. exists (k, c). split; [done|].
      by apply elem_of_map_to_list. }
  exists p'. split; [done|]. split; [|split].
  - apply map_eq. intros k. rewrite Hout, lookup_fmap.
    case_decide as Hk; [done|].
    rewrite Hkeys in Hk. apply eq_None_not_Some in Hk. by rewrite Hk.
  - intros k. rewrite Hupd.
    case_decide as Hin; case_decide as Hs; try done; exfalso.
    + by apply Hs, Hkeys.
    + by apply Hin, Hkeys.
  - tauto.
Qed.

(** X7. [poll_outstations] records no measurement: it leaves every
    history, the threads, the running flag and the identity of the
    coordinator as they were, and changes nothing of an outstation but
    its connection status; a second poll leaves the outstation records
    of the first and only renews the last-update readings. *)
Theorem polling_records_no_measurement (now now' : Z -> timestamp)
    (p : process) :
  let p1 := (poll_outstations now p).1 in
  let p2 := (poll_outstations now' p1).1 in
  measurement_data (master p1) = measurement_data (master p) /\
  threads p1 = threads p /\
  running (master p1) = running (master p) /\
  master_id (master p1) = master_id (master p) /\
  (forall k, match outstations (master p) !! k,
                   outstations (master p1) !! k with
             | Some c, Some c1 =>
                 name c1 = name c /\ host c1 = host c /\
                 port c1 = port c /\ address c1 = address c
             | None, None => True
             | _, _ => False
             end) /\
  outstations (master p2) = outstations (master p1) /\
  (forall k, is_Some (outstations (master p) !! k) ->
     last_update (master p2) !! k = Some (now' k)).
Proof.
  destruct (poll_outstations_spec now p)
    as (p1 & E1 & Ho1 & Hu1 & Hd1 & Ht1 & Hm1 & Hr1 & _).
  destruct (poll_outstations_spec now' p1)
    as (p2 & E2 & Ho2 & Hu2 & _).
  cbv zeta. rewrite E1. cbn [fst]. rewrite E2. cbn [fst].
  repeat split; try done.
  - intros k. rewrite Ho1, lookup_fmap.
    by destruct (outstations (master p) !! k).
  - rewrite Ho2, Ho1. apply map_eq. intros k. rewrite !lookup_fmap.
    by destruct (outstations (master p) !! k).
  - intros k Hk. rewrite Hu2, Ho1, lookup_fmap.
    rewrite decide_True; [done|]. by apply fmap_is_Some.
Qed.

Lemma polling_records_no_measurement_witness :
  last_update
    (master (poll_outstations (fun _ => "later")
               (poll_outstations pretty demo_process).1).1) !! 1
  = Some "later".
Proof.
  pose proof (polling_records_no_measurement pretty (fun _ => "later")
                demo_process) as H.
  cbv zeta in H. destruct H as (_ & _ & _ & _ & _ & _ & Hupd).
  apply Hupd. vm_compute. eauto.
Defined.

(** *** Configuration *)

Lemma config_entry_of_status (k : Z) (c : outstation_config)
    (st : ConnectionStatus) :
  config_entry_of (k, set_connection_status c st) = config_entry_of (k, c).
Proof. done. Qed.

(** X8. [get_config] lists every configured outstation exactly once,
    and what it returns is the same before and after a poll and before
    and after a status request: the configuration shows nothing that
    polling or reading changes. *)
Theorem config_is_unaffected_by_polling (json_loads : string -> option json)
    (logs : Z -> file) (io_ok : Z -> bool)
    (now : Z -> timestamp) (at_ : timestamp) (p : process) :
  get_config (master (poll_outstations now p).1) = get_config (master p) /\
  get_config (master (get_current_status json_loads logs io_ok at_ p).1)
  = get_config (master p) /\
  NoDup (c_id <$> cf_outstations (get_config (master p))) /\
  (forall k, k ∈ (c_id <$> cf_outstations (get_config (master p)))
             <-> is_Some (outstations (master p) !! k)).
Proof.
  split; [|split; [|split]].
  - destruct (poll_outstations_spec now p)
      as (p1 & E1 & Ho1 & _ & _ & _ & Hm1 & _ & Hi1).
    rewrite E1. cbn [fst]. unfold get_config. rewrite Hm1, Hi1, Ho1.
    f_equal. rewrite map_to_list_fmap, <- list_fmap_compose.
    apply list_fmap_ext. intros i [k c] _. done.
  - unfold get_current_status.
    destruct (MasterTheory.status_items_spec json_loads logs io_ok
                (map_to_list (outstations (master p))) p ∅
                (NoDup_fst_map_to_list _))
      as (p' & acc' & Hrun & Hreg & _).
    rewrite Hrun. cbn [fst]. destruct Hreg as (Ho & _ & Hm & _ & Hi & _).
    unfold get_config. by rewrite Ho, Hm, Hi.
  - unfold get_config. cbn [cf_outstations].
    rewrite <- list_fmap_compose.
    rewrite (list_fmap_ext _ fst (map_to_list (outstations (master p))))
      by (by intros i [k c] _).
    apply NoDup_fst_map_to_list.
  - intros k. unfold get_config. cbn [cf_outstations].
    rewrite <- list_fmap_compose.
    rewrite (list_fmap_ext _ fst (map_to_list (outstations (master p))))
      by (by intros i [k' c] _).
    rewrite list_elem_of_fmap. split.
    + intros ([k' c] & -> & Hin). apply elem_of_map_to_list in Hin. eauto.
    + intros [c Hc]. exists (k, c). split; [done|].
      by apply elem_of_map_to_list.
Qed.

(** *** Reading the logs *)

Section ReadingExtra.
Variable json_loads : string -> option json.
Variable logs : Z -> file.
Variable io_ok : Z -> bool.

(** X9. A read of one RTU's log never raises, leaves the outstation
    records and the last-update map as they were and touches no other
    RTU's history.  What it does to the RTU's own history is decided by
    the log alone, not by the value returned: when the log is absent,
    unreadable or empty, or its last line does not decode, every
    history is as it was; when the last line decodes, the value it
    holds is appended and is the last of at most 1000 entries, also
    when that value is [null].  The caller receives [None] in the
    first four cases and in the last one alike, so a returned [None]
    does not tell whether the history has grown. *)
Theorem a_read_touches_one_history_or_none (rtu_id : Z) (p : process) :
  let out := read_measurements_from_log json_loads logs io_ok rtu_id p in
  same_registry p out.1 /\
  (forall k, k <> rtu_id ->
     measurement_data (master out.1) !! k = measurement_data (master p) !! k) /\
  match logs rtu_id with
  | Absent =>
      out.2 = None /\
      measurement_data (master out.1) = measurement_data (master p)
  | Content text =>
      match (if io_ok rtu_id then last (lines_of_text text) else None) with
      | None =>
          out.2 = None /\
          measurement_data (master out.1) = measurement_data (master p)
      | Some line =>
          match json_loads line with
          | None =>
              out.2 = None /\
              measurement_data (master out.1) = measurement_data (master p)
          | Some v =>
              out.2 = Some v /\
              history out.1 rtu_id
              = append_bounded 1000 (history p rtu_id) v /\
              last (history out.1 rtu_id) = Some v /\
              (length (history out.1 rtu_id) <= 1000)%nat /\
              (v = JNull -> returned_value out.2 = returned_value None)
          end
      end
  end.
Proof.
  destruct (MasterTheory.read_measurements_spec json_loads logs io_ok
              rtu_id p) as (p' & E & Hreg & Hdat).
  cbv zeta. rewrite E. cbn [fst snd].
  split; [done|]. split.
  { intros k Hk. rewrite Hdat. by rewrite decide_False. }
  assert (Hown := Hdat rtu_id). rewrite decide_True in Hown by done.
  assert (Hsame : latest_in_log json_loads logs io_ok rtu_id = None ->
    measurement_data (master p') = measurement_data (master p)).
  { intros El. apply map_eq. intros k. rewrite Hdat.
    case_decide; [subst k|done]. unfold recorded. by rewrite El. }
  unfold recorded in Hown. unfold latest_in_log in *.
  destruct (logs rtu_id) as [|text]; [by split; [|apply Hsame]|].
  unfold readlines in *. destruct (io_ok rtu_id); [|by split; [|apply Hsame]].
  destruct (last (lines_of_text text)) as [line|]; cbn in *;
    [|by split; [|apply Hsame]].
  destruct (json_loads line) as [v|]; [|by split; [|apply Hsame]].
  split; [done|].
  assert (Hh : history p' rtu_id = append_bounded 1000 (history p rtu_id) v).
  { unfold history at 1. by rewrite Hown. }
  split; [done|]. rewrite Hh.
  split; [by apply append_bounded_last|].
  split; [by apply (append_bounded_length 1000)|].
  by intros ->.
Qed.

Lemma get_current_status_spec (now : timestamp) (p : process) :
  exists p' st,
    get_current_status json_loads logs io_ok now p = (p', st) /\
    same_registry p p' /\
    (forall k, st_outstations st !! k
       = (fun c => outstation_entry (master p) k c
                     (latest_in_log json_loads logs io_ok k))
           <$> outstations (master p) !! k) /\
    (forall k, measurement_data (master p') !! k
       = if decide (is_Some (outstations (master p) !! k))
         then recorded json_loads logs io_ok p k
         else measurement_data (master p) !! k).
Proof.
  unfold get_current_status.
  destruct (MasterTheory.status_items_spec json_loads logs io_ok
              (map_to_list (outstations (master p))) p ∅
              (NoDup_fst_map_to_list _))
    as (p' & acc' & Hrun & Hreg & Hdat & Hacc & Hrest).
  rewrite Hrun. exists p'. eexists. split; [done|]. cbn.
  assert (Hkeys : forall k,
    k ∈ (map_to_list (outstations (master p))).*1
    <-> is_Some (outstations (master p) !! k)).
  { intros k. rewrite list_elem_of_fmap. split.
    - intros ([k' c] & -> & Hin). apply elem_of_map_to_list in Hin. eauto.
    - intros [c Hc]. exists (k, c). split; [done|].
      by apply elem_of_map_to_list. }
  split; [done|]. split.
  - intros k. destruct (outstations (master p) !! k) as [c|] eqn:Hk; cbn.
    + apply Hacc. by apply elem_of_map_to_list.
    + rewrite Hrest; [done|]. rewrite Hkeys, Hk. by intros [? ?].
  - intros k. rewrite Hdat.
    case_decide as Hin; case_decide as Hs; try done; exfalso.
    + by apply Hs, Hkeys.
    + by apply Hin, Hkeys.
Qed.

(** X10. The history counts reads, not samples: two status requests
    against an unchanged log append the sample of a configured
    outstation twice. *)
Theorem a_sample_is_recorded_at_every_status_request
    (now1 now2 : timestamp) (p : process) (k : Z) (v : json) :
  is_Some (outstations (master p) !! k) ->
  latest_in_log json_loads logs io_ok k = Some v ->
  let p1 := (get_current_status json_loads logs io_ok now1 p).1 in
  let p2 := (get_current_status json_loads logs io_ok now2 p1).1 in
  history p1 k = append_bounded 1000 (history p k) v /\
  history p2 k
  = append_bounded 1000 (append_bounded 1000 (history p k) v) v.
Proof.
  intros Hk Hv.
  destruct (get_current_status_spec now1 p) as (p1 & st1 & E1 & Hreg1 & _ & Hd1).
  destruct (get_current_status_spec now2 p1) as (p2 & st2 & E2 & _ & _ & Hd2).
  cbv zeta. rewrite E1. cbn [fst]. rewrite E2. cbn [fst].
  assert (H1 : history p1 k = append_bounded 1000 (history p k) v).
  { unfold history at 1. rewrite Hd1, decide_True by done.
    unfold recorded. by rewrite Hv. }
  split; [done|].
  unfold history at 1. rewrite Hd2.
  rewrite decide_True by (by rewrite (proj1 Hreg1)).
  unfold recorded. rewrite Hv. cbn [default from_option]. by rewrite H1.
Qed.

(** X11. [get_outstation] answers 404 exactly for an identifier that is
    not configured and the outstation's status block otherwise; either
    way the request has read the logs of all configured outstations and
    recorded a sample for each one whose log gave one. *)
Theorem an_outstation_request_reads_every_log (now : timestamp)
    (outstation_id : Z) (p : process) :
  let out := get_outstation json_loads logs io_ok now outstation_id p in
  out.2 = match outstations (master p) !! outstation_id with
          | Some c =>
              found (outstation_entry (master p) outstation_id c
                       (latest_in_log json_loads logs io_ok outstation_id))
          | None => not_found
          end /\
  same_registry p out.1 /\
  (forall k, measurement_data (master out.1) !! k
     = if decide (is_Some (outstations (master p) !! k))
       then recorded json_loads logs io_ok p k
       else measurement_data (master p) !! k).
Proof.
  destruct (get_current_status_spec now p) as (p' & st & E & Hreg & Hst & Hd).
  cbv zeta. unfold get_outstation. rewrite E. cbn [fst snd].
  split; [|done]. rewrite Hst.
  by destruct (outstations (master p) !! outstation_id).
Qed.

End ReadingExtra.


Lemma a_sample_is_recorded_at_every_status_request_witness :
  history
    (get_current_status loads_literal demo_logs (fun _ => true) "t2"
       (get_current_status loads_literal demo_logs (fun _ => true) "t1"
          demo_process).1).1 1
  = [JBool true; JBool true].
Proof.
  pose proof (a_sample_is_recorded_at_every_status_request loads_literal
                demo_logs (fun _ => true) "t1" "t2" demo_process 1
                (JBool true)) as H.
  cbv zeta in H. destruct H as [_ H2]; [vm_compute; eauto | reflexivity |].
  rewrite H2. reflexivity.
Defined.

(** *** Pages *)

(** X12. A page never holds more entries than a non-negative [limit],
    whatever the offset; an RTU without history gives an empty page
    with [total_records = 0]; without query arguments the page is the
    first hundred entries of the history, the oldest ones. *)
Theorem pages_are_bounded_and_start_at_the_oldest
    (self : SCADAMasterServer) (rtu_id : Z) :
  let h := default [] (measurement_data self !! rtu_id) in
  (forall limit offset, 0 <= limit ->
     Z.of_nat (length (pg_measurements
                         (get_measurements self rtu_id (Some limit)
                            (Some offset)))) <= limit) /\
  (measurement_data self !! rtu_id = None ->
   forall limit offset,
     pg_measurements (get_measurements self rtu_id limit offset) = [] /\
     pg_total_records (get_measurements self rtu_id limit offset) = 0) /\
  pg_measurements (get_measurements self rtu_id None None) = take 100 h /\
  pg_limit (get_measurements self rtu_id None None) = 100 /\
  pg_offset (get_measurements self rtu_id None None) = 0.
Proof.
  intros h. split; [|split].
  - intros limit offset Hl. unfold get_measurements; cbn. fold h.
    unfold py_slice, slice_bound. rewrite length_take, length_drop.
    destruct (Z.ltb_spec offset 0), (Z.ltb_spec (offset + limit) 0); lia.
  - intros Hnone limit offset. unfold get_measurements; cbn.
    rewrite Hnone. cbn. split; [|done].
    unfold py_slice. cbn. by rewrite drop_nil, take_nil.
  - unfold get_measurements; cbn. fold h.
    split; [|done]. rewrite (py_slice_window h 0 100) by lia.
    by rewrite drop_0.
Qed.

Lemma pages_are_bounded_and_start_at_the_oldest_witness :
  Z.of_nat (length (pg_measurements
                      (get_measurements demo_recorded 1 (Some 7)
                         (Some (-3))))) <= 7 /\
  pg_total_records (get_measurements demo_recorded 2 None None) = 0.
Proof.
  pose proof (pages_are_bounded_and_start_at_the_oldest demo_recorded 1) as H1.
  pose proof (pages_are_bounded_and_start_at_the_oldest demo_recorded 2) as H2.
  cbv zeta in H1, H2.
  destruct H1 as (Hle & _). destruct H2 as (_ & Hnone & _).
  split.
  - apply Hle. lia.
  - apply (Hnone eq_refl None None).
Defined.

(** X13. Negative query arguments are slice bounds like any other: the
    page of [limit = k], [offset = -k] is empty for every history, so
    the newest entries cannot be asked for from the end; and a negative
    [limit = -k] at [offset = 0] gives all entries but the last [k]. *)
Theorem negative_arguments_are_slice_bounds (self : SCADAMasterServer)
    (rtu_id : Z) (k : Z) :
  0 < k ->
  let h := default [] (measurement_data self !! rtu_id) in
  pg_measurements (get_measurements self rtu_id (Some k) (Some (- k))) = [] /\
  pg_measurements (get_measurements self rtu_id (Some (- k)) (Some 0))
  = take (length h - Z.to_nat k) h.
Proof.
  intros Hk h. unfold get_measurements; cbn. fold h.
  unfold py_slice, slice_bound. split.
  - destruct (Z.ltb_spec (- k) 0) as [_|?]; [|lia].
    replace (- k + k) with 0 by lia. cbn [Z.ltb Z.compare].
    rewrite Z.min_l by lia.
    replace (Z.to_nat (0 - Z.max (- k + Z.of_nat (length h)) 0)) with 0%nat
      by lia.
    apply take_0.
  - cbn [Z.ltb Z.compare].
    replace (0 + - k) with (- k) by lia.
    destruct (Z.ltb_spec (- k) 0) as [_|?]; [|lia].
    rewrite (Z.min_l 0) by lia. change (Z.to_nat 0) with 0%nat.
    rewrite drop_0. f_equal. lia.
Qed.

Lemma negative_arguments_are_slice_bounds_witness :
  pg_measurements (get_measurements demo_recorded 1 (Some 5) (Some (-5))) = []
  /\
  pg_measurements (get_measurements demo_recorded 1 (Some (-5)) (Some 0))
  = JInt <$> seqZ 0 20.
Proof.
  pose proof (negative_arguments_are_slice_bounds demo_recorded 1 5) as H.
  cbv zeta in H. destruct H as [He Ha]; [lia|].
  split; [exact He|]. etransitivity; [exact Ha|]. vm_compute. reflexivity.
Defined.

End MasterExtra.


(** ** The data logger *)

Module LoggerExtra.
Import Logger.

Section ServiceExtra.
Variable json_loads : string -> option json.
Variable json_dumps : json -> string.

Lemma poll_step (i : poll_input) (p : process) :
  let p' :=
    (poll_scada_server json_loads json_dumps (pi_now i) (pi_write i)
       (pi_result i) p).1 in
  let g := stats_of (logger p) "global" in
  let g' := stats_of (logger p') "global" in
  running (logger p') = running (logger p) /\
  threads p' = threads p /\
  (forall k, k <> "global" ->
     stats (logger p') !! k = stats (logger p) !! k) /\
  text_of (status_file p')
  = text_of (status_file p) +:+ text_written json_loads json_dumps i /\
  total_records g'
  = total_records g
    + Z.of_nat (length (option_list (snapshot_of json_loads (pi_result i)))) /\
  errors g' + total_records g' = errors g + total_records g + 1.
Proof.
  pose proof (LoggerTheory.poll_scada_server_spec json_loads json_dumps
                (pi_now i) (pi_write i) (pi_result i) p) as H.
  cbv zeta in *. destruct H as (_ & Hth & Hother & H).
  split.
  { unfold poll_scada_server.
    destruct (pi_result i) as [|code body]; [done|].
    destruct (code =? 200); [|done]. by destruct (json_loads body). }
  split; [done|]. split; [done|].
  unfold text_written.
  destruct (snapshot_of json_loads (pi_result i)) as [data|];
    destruct H as (H1 & H2 & _ & H4); rewrite H4; cbn.
  - split; [|lia]. apply LoggerTheory.append_text_content.
  - split; [by rewrite string_app_nil_r|]. lia.
Qed.

Lemma _polling_loop_spec (inputs : list poll_input) (p : process) :
  running (logger p) = true ->
  let p' := _polling_loop json_loads json_dumps inputs p in
  let g := stats_of (logger p) "global" in
  let g' := stats_of (logger p') "global" in
  running (logger p') = true /\
  threads p' = threads p /\
  (forall k, k <> "global" ->
     stats (logger p') !! k = stats (logger p) !! k) /\
  text_of (status_file p')
  = text_of (status_file p)
    +:+ join (text_written json_loads json_dumps <$> inputs) /\
  total_records g'
  = total_records g + Z.of_nat (length (snapshots json_loads inputs)) /\
  errors g' + total_records g'
  = errors g + total_records g + Z.of_nat (length inputs).
Proof.
  revert p. induction inputs as [|i inputs IH]; intros p Hrun; cbv zeta.
  - cbn. rewrite string_app_nil_r. repeat split; try done; lia.
  - cbn [_polling_loop]. rewrite Hrun.
    pose proof (poll_step i p) as Hs. cbv zeta in Hs.
    destruct Hs as (Hr1 & Ht1 & Ho1 & Hl1 & Hn1 & He1).
    match goal with |- context [_polling_loop _ _ inputs ?q] =>
      set (p1 := q) in * end.
    specialize (IH p1 ltac:(congruence)). cbv zeta in IH.
    destruct IH as (Hr & Ht & Ho & Hl & Hn & He).
    split; [done|]. split; [congruence|]. split; [|split; [|split]].
    + intros k Hk. by rewrite Ho, Ho1.
    + rewrite Hl, Hl1. rewrite fmap_cons.
      change (join (?x :: ?l)) with (x +:+ join l).
      by rewrite string_app_assoc.
    + rewrite Hn, Hn1. unfold snapshots. cbn [omap list_omap].
      destruct (snapshot_of json_loads (pi_result i)); cbn; lia.
    + rewrite He, He1. cbn [length]. lia.
Qed.


Lemma lines_of_written (inputs : list poll_input) (t : string) :
  (forall j, one_line (json_dumps j) = true) ->
  unterminated t = "" ->
  Forall (fun i => pi_write i = written) inputs ->
  lines_of_text (t +:+ join (text_written json_loads json_dumps <$> inputs))
  = lines_of_text t ++ lines_written json_loads json_dumps inputs.
Proof.
  intros Hdumps. revert t.
  induction inputs as [|i inputs IH]; intros t Ht Hw.
  - cbn. by rewrite string_app_nil_r, app_nil_r.
  - apply Forall_cons in Hw as [Hi Hw].
    rewrite fmap_cons. change (join (?x :: ?l)) with (x +:+ join l).
    unfold lines_written. cbn [omap list_omap].
    fold (lines_written json_loads json_dumps inputs).
    unfold text_written at 1.
    destruct (snapshot_of json_loads (pi_result i)) as [data|];
      cbn [fmap option_fmap option_map].
    + rewrite Hi. cbn [reached].
      destruct (lines_after_record t
                  (json_dumps (JObject [("timestamp", JString (pi_now i));
                                        ("data", data)]))
                  (Hdumps _) Ht) as [Hl Hu].
      fold (record_line json_dumps (pi_now i) data) in Hl, Hu.
      rewrite <- (string_app_assoc t).
      rewrite (IH _ Hu Hw), Hl. by rewrite <- (assoc_L (++)).
    + change ("" +:+ ?x) with x. by apply IH.
Qed.

(** X15. The audit log is append-only under polling.  After a running
    loop its content is the content it had followed by what each poll
    left in it, in the order of the polls: for a poll that obtained a
    snapshot what reached the file of the snapshot's line, for a failed
    poll nothing.  Every line of the old log that was ended by a line
    end is still in its place.  When the old log is empty or ends with
    a line end and every write is taken whole, the lines of the new log
    are those of the old one followed by one line per snapshot; a text
    the old log ended with without a line end is not kept as a line of
    its own, the first text appended being joined to it. *)
Theorem the_audit_log_only_grows (inputs : list poll_input) (p : process) :
  running (logger p) = true ->
  let p' := _polling_loop json_loads json_dumps inputs p in
  let old := text_of (status_file p) in
  let new := text_of (status_file p') in
  new = old +:+ join (text_written json_loads json_dumps <$> inputs) /\
  complete_lines old `prefix_of` complete_lines new /\
  ((forall j, one_line (json_dumps j) = true) ->
   Forall (fun i => pi_write i = written) inputs ->
   (unterminated old = "" ->
    lines_of_text new
    = lines_of_text old ++ lines_written json_loads json_dumps inputs) /\
   (forall i rest, inputs = i :: rest ->
    forall data, snapshot_of json_loads (pi_result i) = Some data ->
    lines_of_text
      (text_of (status_file (_polling_loop json_loads json_dumps [i] p)))
    = complete_lines old
      ++ [unterminated old +:+ record_line json_dumps (pi_now i) data])).
Proof.
  intros Hon. pose proof (_polling_loop_spec inputs p Hon) as H.
  cbv zeta in *. destruct H as (_ & _ & _ & Hl & _).
  split; [done|]. split; [rewrite Hl; apply complete_lines_app|].
  intros Hdumps Hw. split.
  - intros Ht. rewrite Hl. by apply lines_of_written.
  - intros i rest -> data Hdata.
    pose proof (_polling_loop_spec [i] p Hon) as H1. cbv zeta in H1.
    destruct H1 as (_ & _ & _ & Hl1 & _). rewrite Hl1.
    apply Forall_cons in Hw as [Hi _].
    rewrite fmap_cons, fmap_nil.
    change (join [?x]) with (x +:+ ""). unfold text_written.
    rewrite Hdata, Hi. cbn [reached]. rewrite string_app_nil_r.
    unfold record_line. by apply lines_after_append.
Qed.

End ServiceExtra.


Lemma the_audit_log_only_grows_witness :
  let p' :=
    _polling_loop loads_literal (fun _ => "null")
      [ {| pi_now := "t1"; pi_write := written;
           pi_result := response 200 "true" |};
        {| pi_now := "t2"; pi_write := written;
           pi_result := response 500 "true" |} ]
      torn_process in
  text_of (status_file p')
  = "true" +:+ newline +:+ "{oops" +:+ "null" +:+ newline /\
  lines_of_text (text_of (status_file p'))
  = ["true" +:+ newline; "{oopsnull" +:+ newline].
Proof.
  pose proof (the_audit_log_only_grows loads_literal (fun _ => "null")
    [ {| pi_now := "t1"; pi_write := written;
         pi_result := response 200 "true" |};
      {| pi_now := "t2"; pi_write := written;
         pi_result := response 500 "true" |} ]
    torn_process eq_refl) as (Hl & _).
  cbv zeta. rewrite Hl. split; vm_compute; reflexivity.
Defined.

End LoggerExtra.

(** ** From the agent's log to the coordinator *)

Section AgentToCoordinator.
Context {F : Type} {ops : PyFloat F}.
Variable py_round : F -> Z -> F.
Variable json_dumps : Rtu.Sample F -> string.
Variable json_loads : string -> option json.

(** X18. What the coordinator reads from an RTU's log right after an
    update of the agent that returned a sample.  If the agent's write
    was taken whole, it decodes the line of that very sample joined to
    the text the log ended with before; that text is empty when the log
    was absent or empty or ended with a line end, and then the
    coordinator decodes [json.dumps] of the sample and its newline.  If
    [open] raised, it reads what it would have read before the update,
    the new sample never reaching it. *)
Theorem the_coordinator_reads_what_the_agent_wrote (t : Rtu.tick F)
    (p : Rtu.process F) (m : Rtu.Sample F) (rtu_id : Z) :
  (Rtu.update_measurements py_round json_dumps t p).2 = inr m ->
  one_line (json_dumps m) = true ->
  let before := text_of (Rtu.log_file p) in
  let after := Rtu.log_file (Rtu.update_measurements py_round json_dumps t p).1 in
  let read f :=
    Master.latest_in_log json_loads (fun _ => f) (fun _ => true) rtu_id in
  (Rtu.t_write t = written ->
   read after
   = json_loads (unterminated before +:+ json_dumps m +:+ newline) /\
   (unterminated before = "" ->
    read after = json_loads (json_dumps m +:+ newline))) /\
  (Rtu.t_write t = open_raises -> read after = read (Rtu.log_file p)).
Proof.
  intros Hm Hline before after read. subst after.
  pose proof (RtuExtra.update_measurements_spec py_round json_dumps t p) as H.
  cbv zeta in H. destruct H as (_ & _ & _ & H). rewrite Hm in H.
  destruct H as [_ Hlog]. rewrite Hlog. subst read. cbv beta. split.
  - intros ->. cbn [append_text fst].
    assert (Hr : Master.latest_in_log json_loads
                   (fun _ => Content (before +:+ json_dumps m +:+ newline))
                   (fun _ => true) rtu_id
                 = json_loads (unterminated before +:+ json_dumps m +:+ newline)).
    { unfold Master.latest_in_log. cbn [readlines].
      rewrite lines_after_append by done. by rewrite last_snoc. }
    split; [exact Hr|]. intros Hu. rewrite Hu in Hr. exact Hr.
  - intros ->. done.
Qed.

End AgentToCoordinator.

Lemma the_coordinator_reads_what_the_agent_wrote_witness :
  Master.latest_in_log loads_literal
    (fun _ =>
       Rtu.log_file
         (Rtu.update_measurements float_round (fun _ => "true")
            (Rtu.demo_tick 0) Rtu.demo_process).1)
    (fun _ => true) 1
  = Some (JBool true).
Proof.
  destruct (Rtu.update_measurements float_round (fun _ => "true")
              (Rtu.demo_tick 0) Rtu.demo_process).2 as [e|m] eqn:Hm.
  - vm_compute in Hm. discriminate Hm.
  - destruct (the_coordinator_reads_what_the_agent_wrote float_round
                (fun _ => "true") loads_literal (Rtu.demo_tick 0)
                Rtu.demo_process m 1 Hm eq_refl) as [Hw _].
    destruct (Hw eq_refl) as [_ Hread].
    rewrite Hread by reflexivity. reflexivity.
Defined.
